(** * lib/paperless.py: deployment helpers of the paperless-ngx charm

    A shallow embedding of [lib/paperless.py].  The module is a handful of
    wrappers around three kinds of outside world: external commands
    ([subprocess.check_call]), HTTP ([urllib.request.urlopen]) and the file
    system ([open], [tempfile.NamedTemporaryFile]).  Python values are
    embedded as a small universe [pyobj] (what [json.loads] can produce, plus
    byte strings), exceptions as a sum type, and the outside world as a
    record of oracles together with an explicit state that every effectful
    function threads through. *)

From Stdlib Require Import ZArith String Ascii List Bool Lia.
From stdpp Require Import gmap strings list fin_maps pretty.

Set Warnings "-register-all".

Open Scope string_scope.

(** ** Python strings *)

Module PyString.

(** [str.lower] on the ASCII range: 'A'..'Z' are moved to 'a'..'z', every
    other character is kept. *)
Definition lower_char (c : ascii) : ascii :=
  let n := nat_of_ascii c in
  if (65 <=? n)%nat && (n <=? 90)%nat then ascii_of_nat (n + 32) else c.

Fixpoint lower (s : string) : string :=
  match s with
  | EmptyString => EmptyString
  | String c s' => String (lower_char c) (lower s')
  end.

(** [s.startswith(p)] *)
Definition startswith (s p : string) : bool := String.prefix p s.

(** [s.endswith(suffix)]: [suffix] is the whole of [s] or ends its tail. *)
Fixpoint endswith (s suffix : string) : bool :=
  if String.eqb s suffix then true
  else match s with
       | EmptyString => false
       | String _ s' => endswith s' suffix
       end.

(** [sep.join(parts)] *)
Definition join (sep : string) (parts : list string) : string :=
  String.concat sep parts.

(** [str(n)] for an integer, as used by an f-string field. *)
Definition str_of_int (n : Z) : string := pretty n.

(** The characters of a string, each as a one-character string: what
    iterating over a [str] yields. *)
Fixpoint chars (s : string) : list string :=
  match s with
  | EmptyString => []
  | String c s' => String c EmptyString :: chars s'
  end.

End PyString.

Import PyString.

(** ** Python values and exceptions *)

Abbreviation bytes := (list Byte.byte).

(** The values the module handles dynamically: everything [json.loads]
    returns (floats apart, which behave like [PyInt] under every operation
    used here), and byte strings, which [is_iterish] singles out.  A [dict]
    is kept as an association list in insertion order, the order in which
    iterating over it yields its keys. *)
Inductive pyobj : Type :=
| PyNone
| PyBool (b : bool)
| PyInt (n : Z)
| PyStr (s : string)
| PyBytes (b : bytes)
| PyByteArray (b : bytes)
| PyList (items : list pyobj)
| PyDict (entries : list (string * pyobj)).

(** An exception raised inside the standard library or by the operating
    system (URLError, HTTPError, OSError and its subclasses,
    JSONDecodeError, UnicodeDecodeError, ...), named by its class. *)
Record foreign_error : Type :=
  ForeignError { err_class : string; err_detail : string }.

Inductive exn : Type :=
| Exception (msg : string)          (* [raise Exception(...)] of this module *)
| TypeError
| AttributeError
| KeyError (key : string)
| CalledProcessError (returncode : Z)
| Foreign (e : foreign_error).

(** Outcome of a computation: an exception or a value. *)
Definition result (A : Type) : Type := exn + A.

Definition ok {A} (a : A) : result A := inr a.
Definition throw {A} (e : exn) : result A := inl e.

Definition rbind {A B} (r : result A) (k : A -> result B) : result B :=
  match r with
  | inl e => inl e
  | inr a => k a
  end.

(** [d[key]] on an association list: the first entry with that key. *)
Fixpoint dict_get (entries : list (string * pyobj)) (key : string)
  : option pyobj :=
  match entries with
  | [] => None
  | (k, v) :: rest => if String.eqb k key then Some v else dict_get rest key
  end.

(** [obj[key]] with a string key: only a dict can be subscripted that way;
    a missing key is a KeyError, any other receiver a TypeError. *)
Definition getitem (obj : pyobj) (key : string) : result pyobj :=
  match obj with
  | PyDict entries =>
      match dict_get entries key with
      | Some v => ok v
      | None => throw (KeyError key)
      end
  | _ => throw TypeError
  end.

(** [iter(obj)] run to the end: the elements a [for] loop or a
    comprehension visits, in order. *)
Definition py_iter (obj : pyobj) : result (list pyobj) :=
  match obj with
  | PyList items => ok items
  | PyDict entries => ok (map (fun kv => PyStr (fst kv)) entries)
  | PyStr s => ok (map PyStr (chars s))
  | PyBytes b | PyByteArray b =>
      ok (map (fun x => PyInt (Z.of_N (Byte.to_N x))) b)
  | PyNone | PyBool _ | PyInt _ => throw TypeError
  end.

(** [obj.endswith(suffix)] with [suffix] a [str]. *)
Definition py_endswith (obj : pyobj) (suffix : string) : result bool :=
  match obj with
  | PyStr s => ok (endswith s suffix)
  | PyBytes _ | PyByteArray _ => throw TypeError
  | _ => throw AttributeError
  end.

(** Truth value of an optional string ([Union[str, None]]): [None] and the
    empty string are false. *)
Definition truthy (o : option string) : bool :=
  match o with
  | None => false
  | Some s => negb (String.eqb s "")
  end.

(** ** The outside world *)

Record http_response : Type := HttpResponse {
  status : Z;
  read : foreign_error + bytes      (* [response.read()] *)
}.

(** How launching an external command ends: it could not be started, or it
    ran and exited with a code. *)
Inductive launch : Type :=
| NotStarted (e : foreign_error)
| Exited (code : Z).

(** What the program cannot decide by itself. *)
Record environment : Type := Environment {
  (** final answer of the server to a GET, given the URLs requested
      before: a failure below HTTP (URLError, a timeout, a malformed URL),
      or a response with whatever status the server chose *)
  server_reply : list string -> string -> foreign_error + http_response;
  (** [json.loads(data.decode("utf-8"))] *)
  json_decode : bytes -> foreign_error + pyobj;
  (** why a path cannot be opened for writing, if it cannot *)
  open_error : string -> option foreign_error;
  (** outcome of handing a command line and an optional environment to
      [subprocess]; [NotStarted] covers what [subprocess] itself refuses
      (a missing executable, an argument with an embedded NUL) *)
  spawn : list pyobj -> option (gmap string string) -> launch;
  (** [platform.machine()] *)
  machine : string;
  (** [os.environ] *)
  environ : gmap string string;
  (** [tempfile.gettempdir()], [tempfile.TMP_MAX] and the stream of random
      name candidates *)
  tempdir : string;
  TMP_MAX : nat;
  random_name : nat -> string
}.

(** The observable state: the URLs [urlopen] was called on, the files on
    disk, and the command lines handed to [subprocess] with their
    environment, whether or not the launch succeeded. *)
Record world : Type := World {
  requests : list string;
  files : gmap string bytes;
  commands : list (list pyobj * option (gmap string string))
}.

(** The statuses [urllib] lets through: 200..299. *)
Definition is_2xx (code : Z) : bool := (200 <=? code)%Z && (code <? 300)%Z.

(** [urllib.error.HTTPError] for a status, told by its [code]; the reason
    phrase, which the server chooses, is left out of the text. *)
Definition http_error (code : Z) : foreign_error :=
  ForeignError "HTTPError" ("HTTP Error " +:+ str_of_int code).

(** What the opener of [urllib.request] hands to [urlopen]: its
    [HTTPErrorProcessor] lets a response through only when the status is
    within 200..299, and turns any other final answer into an HTTPError
    that carries the status. *)
Definition net_reply (E : environment) (history : list string) (url : string)
  : foreign_error + http_response :=
  match server_reply E history url with
  | inl e => inl e
  | inr response =>
      if is_2xx (status response) then inr response
      else inl (http_error (status response))
  end.

Definition M (A : Type) : Type := world -> result A * world.

Definition ret {A} (a : A) : M A := fun w => (inr a, w).
Definition raise {A} (e : exn) : M A := fun w => (inl e, w).
Definition bind {A B} (m : M A) (k : A -> M B) : M B :=
  fun w => match m w with
           | (inl e, w') => (inl e, w')
           | (inr a, w') => k a w'
           end.
Definition lift {A} (r : result A) : M A := fun w => (r, w).
Definition lift_foreign {A} (r : foreign_error + A) : M A :=
  fun w => match r with
           | inl e => (inl (Foreign e), w)
           | inr a => (inr a, w)
           end.

(** [try: body except CalledProcessError: handler] *)
Definition except_CalledProcessError {A} (body : M A) (handler : M A) : M A :=
  fun w => match body w with
           | (inl (CalledProcessError _), w') => handler w'
           | other => other
           end.

Declare Scope py_scope.
Delimit Scope py_scope with py.
Notation "'let*' x ':=' m 'in' k" := (bind m (fun x => k))
  (at level 10, x name, m at level 100, k at level 200) : py_scope.
Open Scope py_scope.

Definition add_request (url : string) (w : world) : world :=
  {| requests := (requests w ++ [url])%list;
     files := files w;
     commands := commands w |}.

Definition set_files (fs : gmap string bytes) (w : world) : world :=
  {| requests := requests w;
     files := fs;
     commands := commands w |}.

Definition add_command (cmd : list pyobj) (env : option (gmap string string))
    (w : world) : world :=
  {| requests := requests w;
     files := files w;
     commands := (commands w ++ [(cmd, env)])%list |}.

(** [[f(x) for x in l]] where [f] may raise. *)
Fixpoint comprehension {A B} (f : A -> result B) (l : list A)
  : result (list B) :=
  match l with
  | [] => ok []
  | x :: rest =>
      rbind (f x) (fun y =>
      rbind (comprehension f rest) (fun ys => ok (y :: ys)))
  end.

Definition as_str (obj : pyobj) : result string :=
  match obj with
  | PyStr s => ok s
  | _ => throw TypeError
  end.

(** [sep.join(obj)]: every element must be a [str]. *)
Definition str_join (sep : string) (obj : pyobj) : result string :=
  rbind (py_iter obj) (fun items =>
  rbind (comprehension as_str items) (fun parts =>
  ok (join sep parts))).

(** [isinstance(obj, (str, bytes, bytearray))] *)
Definition is_string_like (obj : pyobj) : bool :=
  match obj with
  | PyStr _ | PyBytes _ | PyByteArray _ => true
  | _ => false
  end.

(** ** Library calls over the world *)

Section Library.
Context (E : environment).

(** What [subprocess] accepts as a command-line argument. *)
Definition is_arg (obj : pyobj) : bool :=
  match obj with
  | PyStr _ | PyBytes _ => true
  | _ => false
  end.

(** [subprocess.check_call(cmd, env=env)]: a non-zero exit code becomes a
    CalledProcessError. *)
Definition check_call (cmd : list pyobj) (env : option (gmap string string))
  : M unit :=
  fun w =>
    if forallb is_arg cmd then
      match spawn E cmd env with
      | NotStarted e => (inl (Foreign e), add_command cmd env w)
      | Exited code =>
          if (code =? 0)%Z then (inr tt, add_command cmd env w)
          else (inl (CalledProcessError code), add_command cmd env w)
      end
    else (inl TypeError, w).

(** [urllib.request.urlopen(url)]: the response the opener lets through, or
    the exception it raises, an HTTPError for a status outside 200..299
    included *)
Definition urlopen (url : pyobj) : M http_response :=
  match url with
  | PyStr u =>
      fun w =>
        match net_reply E (requests w) u with
        | inl e => (inl (Foreign e), add_request u w)
        | inr response => (inr response, add_request u w)
        end
  | _ => raise AttributeError
  end.

(** [open(path, mode="wb")]: the file is created or truncated; the handle
    is identified by its [name], the path. *)
Definition open_wb (path : string) : M string :=
  fun w =>
    match open_error E path with
    | Some e => (inl (Foreign e), w)
    | None => (inr path, set_files (<[path := []]> (files w)) w)
    end.

(** [output.write(data)] *)
Definition write (name : string) (data : bytes) : M unit :=
  fun w =>
    (inr tt,
     set_files
       (<[name := (default [] (files w !! name) ++ data)%list]> (files w)) w).

Definition temp_path (suffix : string) (i : nat) : string :=
  tempdir E +:+ "/" +:+ "tmp" +:+ random_name E i +:+ suffix.

(** The candidate loop of [tempfile]: a name that exists is skipped, the
    first free one is created; after [attempts] tries it gives up. *)
Fixpoint mkstemp_inner (suffix : string) (i attempts : nat) : M string :=
  match attempts with
  | O => raise (Foreign (ForeignError "FileExistsError"
                           "No usable temporary file name found"))
  | S attempts' =>
      fun w =>
        match files w !! temp_path suffix i with
        | Some _ => mkstemp_inner suffix (S i) attempts' w
        | None => open_wb (temp_path suffix i) w
        end
  end.

(** [NamedTemporaryFile(mode="wb", suffix=suffix, delete=False)] *)
Definition NamedTemporaryFile (suffix : string) : M string :=
  mkstemp_inner suffix 0 (TMP_MAX E).

End Library.

(** ** The module *)

Definition gh_paperless_user : string := "paperless-ngx".
Definition gh_paperless_repo : string := "paperless-ngx".

(** [is_iterish]: iterable, and neither [str] nor [bytes] nor [bytearray];
    the TypeError of [iter] is turned into [False]. *)
Definition is_iterish (obj : pyobj) : result bool :=
  match py_iter obj with
  | inr _ => ok (negb (is_string_like obj))
  | inl TypeError => ok false
  | inl e => throw e
  end.

(** The scan of the asset list in [gh_download_release_asset]: [asset_url]
    starts as [None]; the first asset whose name ends with [extension] sets
    it and breaks out of the loop. *)
Fixpoint find_asset_url (assets : list pyobj) (extension : string)
  : result pyobj :=
  match assets with
  | [] => ok PyNone
  | asset :: rest =>
      rbind (getitem asset "name") (fun name =>
      rbind (py_endswith name extension) (fun matches =>
      if matches : bool then getitem asset "browser_download_url"
      else find_asset_url rest extension))
  end.

Section Module.
Context (E : environment).

Definition apt_update : M unit :=
  let cmd := [PyStr "apt-get"; PyStr "update"] in
  check_call E cmd None.

Definition apt_satisfy (packages : pyobj) : M unit :=
  let* iterish := lift (is_iterish packages) in
  let* packages :=
    if iterish : bool
    then (let* joined := lift (str_join ", " packages) in ret (PyStr joined))
    else ret packages in
  let cmd := [PyStr "apt"; PyStr "satisfy"; PyStr "-y"; packages] in
  let env := <["DEBIAN_FRONTEND" := "noninteractive"]> (environ E) in
  check_call E cmd (Some env).

Definition machine_is_arm : M bool :=
  let architecture := lower (machine E) in
  ret (startswith architecture "arm" || startswith architecture "aarch").

Definition linux_user_exists (user : pyobj) : M bool :=
  let cmd := [PyStr "getent"; PyStr "passwd"; user] in
  except_CalledProcessError
    (let* _ := check_call E cmd None in ret true)
    (ret false).

Definition releases_url (user repo : string) : string :=
  "https://api.github.com/repos/" +:+ user +:+ "/" +:+ repo +:+ "/releases".

Definition release_url (user repo tag : string) : string :=
  "https://api.github.com/repos/" +:+ user +:+ "/" +:+ repo
    +:+ "/releases/tags/" +:+ tag.

(** [f"HTTP error {response.status}"] *)
Definition http_error_message (code : Z) : string :=
  "HTTP error " +:+ str_of_int code.

Definition gh_list_releases (user repo : string) : M (list pyobj) :=
  let url := releases_url user repo in
  let* response := urlopen E (PyStr url) in
  if negb (status response =? 200)%Z
  then raise (Exception (http_error_message (status response)))
  else
    let* data := lift_foreign (read response) in
    let* releases := lift_foreign (json_decode E data) in
    let* items := lift (py_iter releases) in
    lift (comprehension (fun release => getitem release "tag_name") items).

(** The conditional expression that opens the output (lines 114-118):
    [open(destination, mode="wb") if destination else
    NamedTemporaryFile(mode="wb", suffix=extension, delete=False)]. *)
Definition open_output (extension : string) (destination : option string)
  : M string :=
  match destination with
  | Some path =>
      if truthy destination then open_wb E path
      else NamedTemporaryFile E extension
  | None => NamedTemporaryFile E extension
  end.

(** The [with] block that downloads the asset (lines 113-120): the
    request is sent first, then the output is opened, then the body is
    read and written, and the name of the output is returned. *)
Definition save_asset (asset_url : pyobj) (extension : string)
    (destination : option string) : M string :=
  let* response := urlopen E asset_url in
  let* output := open_output extension destination in
  let* body := lift_foreign (read response) in
  let* _ := write output body in
  ret output.

(** [f"No asset with extension {extension} found for release {tag}"] *)
Definition not_found_message (extension tag : string) : string :=
  "No asset with extension " +:+ extension
    +:+ " found for release " +:+ tag.

Definition gh_download_release_asset (user repo tag : string)
    (extension : string) (destination : option string) : M string :=
  let url := release_url user repo tag in
  let* response := urlopen E (PyStr url) in
  if negb (status response =? 200)%Z
  then raise (Exception (http_error_message (status response)))
  else
    let* data := lift_foreign (read response) in
    let* release_info := lift_foreign (json_decode E data) in
    let* assets_field := lift (getitem release_info "assets") in
    let* assets := lift (py_iter assets_field) in
    let* asset_url := lift (find_asset_url assets extension) in
    match asset_url with
    | PyNone => raise (Exception (not_found_message extension tag))
    | _ => save_asset asset_url extension destination
    end.

Definition list_paperless_versions : M (list pyobj) :=
  gh_list_releases gh_paperless_user gh_paperless_repo.

Definition download_paperless_archive (tag : string) : M string :=
  gh_download_release_asset gh_paperless_user gh_paperless_repo tag
    ".tar.xz" None.

End Module.

(** ** Vocabulary of the statements *)

(** The asset is an object whose [name] is a string ending with
    [extension]. *)
Definition name_matches (extension : string) (asset : pyobj) : bool :=
  match getitem asset "name" with
  | inr (PyStr name) => endswith name extension
  | _ => false
  end.

(** The asset is an object whose [name] is a string. *)
Definition has_name (asset : pyobj) : bool :=
  match getitem asset "name" with
  | inr (PyStr _) => true
  | _ => false
  end.

(** An asset the scan passes over: it has a name, and the name does not end
    with the extension. *)
Definition passed_over (extension : string) (asset : pyobj) : bool :=
  has_name asset && negb (name_matches extension asset).

(** The asset follows the schema of the hosting platform: an object with a
    string [name] and a string [browser_download_url]. *)
Definition is_asset (asset : pyobj) : bool :=
  match getitem asset "name", getitem asset "browser_download_url" with
  | inr (PyStr _), inr (PyStr _) => true
  | _, _ => false
  end.

(** The [tag_name] of a release object, if it is an object that has one. *)
Definition tag_of (release : pyobj) : option pyobj :=
  match release with
  | PyDict entries => dict_get entries "tag_name"
  | _ => None
  end.

(** What opening a file for writing can do: create or truncate it, or fail
    with a foreign error and leave the world alone. *)
Definition opened (w : world) (outcome : result string * world) : Prop :=
  (exists path, outcome = (inr path, set_files (<[path := []]> (files w)) w))
  \/ (exists e, outcome = (inl (Foreign e), w)).

Section Vocabulary.
Context (E : environment).

(** A GET of [url] from world [w] is answered with status 200 and a body
    that decodes to the JSON value [info]. *)
Definition lookup_yields (w : world) (url : string) (info : pyobj) : Prop :=
  exists response data,
    net_reply E (requests w) url = inr response /\
    status response = 200%Z /\
    read response = inr data /\
    json_decode E data = inr info.

(** The release lookup succeeds and the scan of its assets selects the
    download URL [u]. *)
Definition selects (w : world) (user repo tag extension u : string) : Prop :=
  exists info field assets,
    lookup_yields w (release_url user repo tag) info /\
    getitem info "assets" = inr field /\
    py_iter field = inr assets /\
    find_asset_url assets extension = inr (PyStr u).

(** The command line of the account lookup. *)
Definition getent (user : pyobj) : list pyobj :=
  [PyStr "getent"; PyStr "passwd"; user].

(** The command line and the environment of [apt satisfy]. *)
Definition apt_satisfy_cmd (specification : string) : list pyobj :=
  [PyStr "apt"; PyStr "satisfy"; PyStr "-y"; PyStr specification].

Definition noninteractive : gmap string string :=
  <["DEBIAN_FRONTEND" := "noninteractive"]> (environ E).

End Vocabulary.

(** ** A concrete environment for the examples *)

Module Demo.

Definition dq : string := String (ascii_of_nat 34) EmptyString.
Definition quoted (s : string) : string := dq +:+ s +:+ dq.

Definition body (text : string) : bytes := list_byte_of_string text.

Fixpoint assoc {A} (table : list (string * A)) (key : string) : option A :=
  match table with
  | [] => None
  | (k, v) :: rest => if String.eqb k key then Some v else assoc rest key
  end.

(** The text [[{"tag_name":"v1"},{"tag_name":"v2"}]] and its value. *)
Definition releases_text : string :=
  "[{" +:+ quoted "tag_name" +:+ ":" +:+ quoted "v1" +:+ "},{"
    +:+ quoted "tag_name" +:+ ":" +:+ quoted "v2" +:+ "}]".

Definition releases_value : pyobj :=
  PyList [PyDict [("tag_name", PyStr "v1")];
          PyDict [("tag_name", PyStr "v2")]].

(** A release with assets x.zip, y.tar.xz (at U) and z.tar.xz (at V). *)
Definition release_text : string :=
  "{" +:+ quoted "assets" +:+ ":[{" +:+ quoted "name" +:+ ":"
    +:+ quoted "x.zip" +:+ "," +:+ quoted "browser_download_url" +:+ ":"
    +:+ quoted "https://dl/x.zip" +:+ "},{" +:+ quoted "name" +:+ ":"
    +:+ quoted "y.tar.xz" +:+ "," +:+ quoted "browser_download_url" +:+ ":"
    +:+ quoted "https://dl/U" +:+ "},{" +:+ quoted "name" +:+ ":"
    +:+ quoted "z.tar.xz" +:+ "," +:+ quoted "browser_download_url" +:+ ":"
    +:+ quoted "https://dl/V" +:+ "}]}".

Definition asset_x : pyobj :=
  PyDict [("name", PyStr "x.zip");
          ("browser_download_url", PyStr "https://dl/x.zip")].
Definition asset_y : pyobj :=
  PyDict [("name", PyStr "y.tar.xz");
          ("browser_download_url", PyStr "https://dl/U")].
Definition asset_z : pyobj :=
  PyDict [("name", PyStr "z.tar.xz");
          ("browser_download_url", PyStr "https://dl/V")].

Definition release_value : pyobj :=
  PyDict [("assets", PyList [asset_x; asset_y; asset_z])].

(** A release that only carries a zip archive. *)
Definition zip_only_text : string :=
  "{" +:+ quoted "assets" +:+ ":[{" +:+ quoted "name" +:+ ":"
    +:+ quoted "x.zip" +:+ "," +:+ quoted "browser_download_url" +:+ ":"
    +:+ quoted "https://dl/x.zip" +:+ "}]}".

Definition zip_only_value : pyobj := PyDict [("assets", PyList [asset_x])].

Definition decode_table : list (string * pyobj) :=
  [(releases_text, releases_value);
   (release_text, release_value);
   (zip_only_text, zip_only_value)].

Definition archive : bytes := body "archive bytes".
Definition error_page : bytes := body "<html>Not Found</html>".

Definition replies : list (string * http_response) :=
  [("https://api.github.com/repos/o/p/releases",
     HttpResponse 200 (inr (body releases_text)));
   ("https://api.github.com/repos/o/p/releases/tags/v1",
     HttpResponse 200 (inr (body release_text)));
   ("https://api.github.com/repos/o/p/releases/tags/v0",
     HttpResponse 200 (inr (body zip_only_text)));
   ("https://api.github.com/repos/o/gone/releases",
     HttpResponse 404 (inr error_page));
   ("https://api.github.com/repos/o/gone/releases/tags/v1",
     HttpResponse 404 (inr error_page));
   ("https://dl/U", HttpResponse 200 (inr archive));
   ("https://dl/V", HttpResponse 200 (inr (body "another archive")))].

Definition unreachable : foreign_error :=
  ForeignError "URLError" "unreachable".
Definition bad_json : foreign_error :=
  ForeignError "JSONDecodeError" "Expecting value".
Definition no_such_file : foreign_error :=
  ForeignError "FileNotFoundError" "No such file or directory".

(** [getent passwd root] succeeds, [getent passwd nobody-here] exits with
    2, [apt] succeeds, anything else cannot be started. *)
Definition demo_spawn (cmd : list pyobj) (env : option (gmap string string))
  : launch :=
  match cmd with
  | [PyStr "getent"; PyStr "passwd"; PyStr "root"] => Exited 0
  | [PyStr "getent"; PyStr "passwd"; PyStr _] => Exited 2
  | PyStr "apt" :: _ => Exited 0
  | _ => NotStarted no_such_file
  end.

Definition env (replies : list (string * http_response)) : environment :=
  {| server_reply := fun _ url =>
       match assoc replies url with
       | Some response => inr response
       | None => inl unreachable
       end;
     json_decode := fun data =>
       match assoc decode_table (string_of_list_byte data) with
       | Some value => inr value
       | None => inl bad_json
       end;
     open_error := fun path =>
       if String.eqb path "" then Some no_such_file else None;
     spawn := demo_spawn;
     machine := "aarch64";
     environ := {[ "PATH" := "/usr/bin" ]};
     tempdir := "/tmp";
     TMP_MAX := 100;
     random_name := fun i => "n" +:+ pretty i |}.

Definition demo : environment := env replies.


(** [E] on a machine that reports [m]. *)
Definition with_machine (m : string) (E : environment) : environment :=
  {| server_reply := server_reply E;
     json_decode := json_decode E;
     open_error := open_error E;
     spawn := spawn E;
     machine := m;
     environ := environ E;
     tempdir := tempdir E;
     TMP_MAX := TMP_MAX E;
     random_name := random_name E |}.

(** [E] on a host where no command can be started. *)
Definition without_commands (E : environment) : environment :=
  {| server_reply := server_reply E;
     json_decode := json_decode E;
     open_error := open_error E;
     spawn := fun _ _ => NotStarted no_such_file;
     machine := machine E;
     environ := environ E;
     tempdir := tempdir E;
     TMP_MAX := TMP_MAX E;
     random_name := random_name E |}.

Definition w0 : world :=
  {| requests := [];
     files := {[ "/srv/old.tar.xz" := body "old";
                 "/tmp/tmpn0.tar.xz" := body "taken" ]};
     commands := [] |}.

End Demo.

(** Discharging the lookup hypotheses on the example network. *)
Ltac demo_lookup text :=
  exists (HttpResponse 200 (inr (Demo.body text))), (Demo.body text);
  repeat split; vm_compute; reflexivity.

Ltac demo_selects :=
  exists Demo.release_value,
    (PyList [Demo.asset_x; Demo.asset_y; Demo.asset_z]),
    [Demo.asset_x; Demo.asset_y; Demo.asset_z];
  split; [demo_lookup Demo.release_text | repeat split].

(** ** Further vocabulary *)

Definition is_str (obj : pyobj) : bool :=
  match obj with
  | PyStr _ => true
  | _ => false
  end.

(** The release is an object that has a [tag_name]. *)
Definition has_tag (release : pyobj) : bool :=
  match tag_of release with
  | Some _ => true
  | None => false
  end.

(** How a launched command ends for [check_call]. *)
Definition call_outcome (l : launch) : result unit :=
  match l with
  | NotStarted e => inl (Foreign e)
  | Exited code => if (code =? 0)%Z then inr tt else inl (CalledProcessError code)
  end.




(** The character is the given letter, in lower or in upper case. *)
Definition letter (low up c : ascii) : Prop := c = low \/ c = up.

(** ** Further cases on the example network *)

Module Cases.

Definition field (key value : string) : string :=
  Demo.quoted key +:+ ":" +:+ value.

(** [[{"tag_name":"v1"},{"name":"draft"}]]: the second release has no tag. *)
Definition untagged_text : string :=
  "[{" +:+ field "tag_name" (Demo.quoted "v1") +:+ "},{"
    +:+ field "name" (Demo.quoted "draft") +:+ "}]".
Definition untagged_value : pyobj :=
  PyList [PyDict [("tag_name", PyStr "v1")];
          PyDict [("name", PyStr "draft")]].

(** [{"message":"Not Found"}]: an object where an array is expected. *)
Definition message_text : string :=
  "{" +:+ field "message" (Demo.quoted "Not Found") +:+ "}".
Definition message_value : pyobj :=
  PyDict [("message", PyStr "Not Found")].

Definition asset_text (name url : string) : string :=
  "{" +:+ field "name" (Demo.quoted name) +:+ ","
    +:+ field "browser_download_url" url +:+ "}".

(** A release whose second asset has no name. *)
Definition nameless_text : string :=
  "{" +:+ field "assets"
            ("[" +:+ asset_text "x.zip" (Demo.quoted "https://dl/x.zip")
               +:+ ",{" +:+ field "id" "7" +:+ "},"
               +:+ asset_text "y.tar.xz" (Demo.quoted "https://dl/U") +:+ "]")
    +:+ "}".
Definition nameless_asset : pyobj := PyDict [("id", PyInt 7)].
Definition nameless_value : pyobj :=
  PyDict [("assets", PyList [Demo.asset_x; nameless_asset; Demo.asset_y])].

(** A release whose archive has a name but no download URL. *)
Definition urlless_text : string :=
  "{" +:+ field "assets"
            ("[{" +:+ field "name" (Demo.quoted "y.tar.xz") +:+ "},"
               +:+ asset_text "z.tar.xz" (Demo.quoted "https://dl/V") +:+ "]")
    +:+ "}".
Definition urlless_asset : pyobj := PyDict [("name", PyStr "y.tar.xz")].
Definition urlless_value : pyobj :=
  PyDict [("assets", PyList [urlless_asset; Demo.asset_z])].

(** A release whose first archive has [null] as download URL. *)
Definition null_url_text : string :=
  "{" +:+ field "assets"
            ("[" +:+ asset_text "y.tar.xz" "null" +:+ ","
               +:+ asset_text "z.tar.xz" (Demo.quoted "https://dl/V") +:+ "]")
    +:+ "}".
Definition null_url_asset : pyobj :=
  PyDict [("name", PyStr "y.tar.xz"); ("browser_download_url", PyNone)].
Definition null_url_value : pyobj :=
  PyDict [("assets", PyList [null_url_asset; Demo.asset_z])].

(** [{"tag_name":"v1"}]: a release without an asset list. *)
Definition bare_text : string :=
  "{" +:+ field "tag_name" (Demo.quoted "v1") +:+ "}".
Definition bare_value : pyobj := PyDict [("tag_name", PyStr "v1")].

Definition decode_table : list (string * pyobj) :=
  [(untagged_text, untagged_value);
   (message_text, message_value);
   (nameless_text, nameless_value);
   (urlless_text, urlless_value);
   (null_url_text, null_url_value);
   (bare_text, bare_value);
   (Demo.release_text, Demo.release_value)].

Definition page (text : string) : http_response :=
  HttpResponse 200 (inr (Demo.body text)).

Definition replies : list (string * http_response) :=
  [("https://api.github.com/repos/o/untagged/releases", page untagged_text);
   ("https://api.github.com/repos/o/message/releases", page message_text);
   ("https://api.github.com/repos/o/p/releases/tags/nameless",
     page nameless_text);
   ("https://api.github.com/repos/o/p/releases/tags/urlless",
     page urlless_text);
   ("https://api.github.com/repos/o/p/releases/tags/null",
     page null_url_text);
   ("https://api.github.com/repos/o/p/releases/tags/bare", page bare_text);
   ("https://api.github.com/repos/paperless-ngx/paperless-ngx/releases/tags/v1",
     page Demo.release_text);
   ("https://dl/U", HttpResponse 200 (inr Demo.archive));
   ("https://dl/V", HttpResponse 200 (inr (Demo.body "another archive")))].

(** The example environment with another network and decoder. *)
Definition serving (table : list (string * pyobj))
    (replies : list (string * http_response)) : environment :=
  {| server_reply := fun _ url =>
       match Demo.assoc replies url with
       | Some response => inr response
       | None => inl Demo.unreachable
       end;
     json_decode := fun data =>
       match Demo.assoc table (string_of_list_byte data) with
       | Some value => inr value
       | None => inl Demo.bad_json
       end;
     open_error := open_error Demo.demo;
     spawn := spawn Demo.demo;
     machine := machine Demo.demo;
     environ := environ Demo.demo;
     tempdir := tempdir Demo.demo;
     TMP_MAX := TMP_MAX Demo.demo;
     random_name := random_name Demo.demo |}.

Definition cases : environment := serving decode_table replies.

(** The release can be looked up but the archive host cannot be reached. *)
Definition offline : environment :=
  Demo.env [("https://api.github.com/repos/o/p/releases/tags/v1",
              page Demo.release_text)].

Definition incomplete : foreign_error :=
  ForeignError "IncompleteRead" "connection reset".

(** The archive host answers, but the body cannot be read. *)
Definition unreadable : environment :=
  Demo.env (("https://dl/U", HttpResponse 200 (inl incomplete))
              :: Demo.replies).

Definition denied : foreign_error :=
  ForeignError "PermissionError" "Permission denied".

(** The example environment on a file system that refuses every write. *)
Definition read_only : environment :=
  {| server_reply := server_reply Demo.demo;
     json_decode := json_decode Demo.demo;
     open_error := fun _ => Some denied;
     spawn := spawn Demo.demo;
     machine := machine Demo.demo;
     environ := environ Demo.demo;
     tempdir := tempdir Demo.demo;
     TMP_MAX := TMP_MAX Demo.demo;
     random_name := random_name Demo.demo |}.

(** A host whose environment already sets DEBIAN_FRONTEND, and where every
    command exits with [code]. *)
Definition exiting (code : Z) : environment :=
  {| server_reply := server_reply Demo.demo;
     json_decode := json_decode Demo.demo;
     open_error := open_error Demo.demo;
     spawn := fun _ _ => Exited code;
     machine := machine Demo.demo;
     environ := {[ "DEBIAN_FRONTEND" := "dialog"; "LANG" := "C" ]};
     tempdir := tempdir Demo.demo;
     TMP_MAX := TMP_MAX Demo.demo;
     random_name := random_name Demo.demo |}.


End Cases.

Ltac cases_lookup text :=
  exists (Cases.page text), (Demo.body text);
  repeat split; vm_compute; reflexivity.

(** ** Facts about the string operations *)

Section StringFacts.

Lemma append_nil_l (s : string) : "" +:+ s = s.
Proof. reflexivity. Qed.

Lemma append_cons (c : ascii) (s t : string) :
  String c s +:+ t = String c (s +:+ t).
Proof. reflexivity. Qed.

Lemma startswith_spec (s p : string) :
  startswith s p = true <-> exists rest, s = p +:+ rest.
Proof.
  unfold startswith. revert s.
  induction p as [|c p IH]; intros s.
  - split; [intros _; exists s; reflexivity | now destruct s].
  - destruct s as [|d s]; simpl.
    + split; [discriminate | intros [rest H]; discriminate].
    + destruct (Ascii.ascii_dec c d) as [->|Hne].
      * rewrite IH. split; intros [rest H]; exists rest.
        -- now rewrite append_cons, H.
        -- rewrite append_cons in H. now injection H.
      * split; [discriminate|].
        intros [rest H]. rewrite append_cons in H.
        injection H as H1 _. congruence.
Qed.

Lemma endswith_unfold (s suffix : string) :
  endswith s suffix =
    if String.eqb s suffix then true
    else match s with
         | EmptyString => false
         | String _ s' => endswith s' suffix
         end.
Proof. destruct s; reflexivity. Qed.

Lemma endswith_refl (s : string) : endswith s s = true.
Proof. now rewrite endswith_unfold, String.eqb_refl. Qed.

Lemma endswith_spec (s suffix : string) :
  endswith s suffix = true <-> exists front, s = front +:+ suffix.
Proof.
  induction s as [|c s IH]; rewrite endswith_unfold.
  - destruct (String.eqb_spec "" suffix) as [<-|Hne].
    + split; [intros _; now exists "" | reflexivity].
    + split; [discriminate|].
      intros [front H]. destruct front.
      * now rewrite append_nil_l in H.
      * now rewrite append_cons in H.
  - destruct (String.eqb_spec (String c s) suffix) as [<-|Hne].
    + split; [intros _; now exists "" | reflexivity].
    + rewrite IH. split.
      * intros [front ->]. now exists (String c front).
      * intros [front H]. destruct front as [|d front].
        -- now rewrite append_nil_l in H.
        -- rewrite append_cons in H. injection H as _ H. now exists front.
Qed.

Lemma lower_app (s t : string) : lower (s +:+ t) = lower s +:+ lower t.
Proof.
  induction s as [|c s IH]; [reflexivity|].
  rewrite append_cons. simpl. now rewrite IH, append_cons.
Qed.

Lemma lower_app_inv (m a b : string) :
  lower m = a +:+ b ->
  exists p r, m = p +:+ r /\ lower p = a /\ lower r = b.
Proof.
  revert m. induction a as [|c a IH]; intros m H.
  - now exists "", m.
  - rewrite append_cons in H.
    destruct m as [|d m]; simpl in H; [discriminate|].
    injection H as Hc Hm.
    destruct (IH _ Hm) as (p & r & -> & Hp & Hr).
    exists (String d p), r. simpl. now rewrite Hc, Hp.
Qed.

End StringFacts.

Example endswith_tar_xz : endswith "paperless-ngx-v2.1.0.tar.xz" ".tar.xz" = true.
Proof. reflexivity. Qed.

Example endswith_case_sensitive : endswith "paperless.TAR.XZ" ".tar.xz" = false.
Proof. reflexivity. Qed.

Example endswith_longer_suffix : endswith "xz" ".tar.xz" = false.
Proof. reflexivity. Qed.

Example endswith_not_infix : endswith "a.tar.xz.sha256" ".tar.xz" = false.
Proof. reflexivity. Qed.

Example lower_mixed : lower "AArch64" = "aarch64".
Proof. reflexivity. Qed.

Example str_of_int_404 : str_of_int 404 = "404".
Proof. reflexivity. Qed.

(** ** The architecture probe *)

Section Architecture.
Context (E : environment).

Lemma lowered_prefix (m pat : string) :
  (exists rest, lower m = pat +:+ rest) <->
  (exists p rest, m = p +:+ rest /\ lower p = pat).
Proof.
  split.
  - intros [rest H]. destruct (lower_app_inv _ _ _ H) as (p & r & -> & Hp & _).
    now exists p, r.
  - intros (p & rest & -> & <-). exists (lower rest). apply lower_app.
Qed.

Ltac case_fold :=
  let c := fresh "c" in
  intros c; unfold letter;
  destruct c as [[] [] [] [] [] [] [] []];
  (split; [intros H; try discriminate H; auto
          | intros [H | H]; try discriminate H; reflexivity]).

Lemma lower_char_a : forall c, lower_char c = "a"%char <-> letter "a" "A" c.
Proof. case_fold. Qed.

Lemma lower_char_r : forall c, lower_char c = "r"%char <-> letter "r" "R" c.
Proof. case_fold. Qed.

Lemma lower_char_m : forall c, lower_char c = "m"%char <-> letter "m" "M" c.
Proof. case_fold. Qed.

Lemma lower_char_c : forall c, lower_char c = "c"%char <-> letter "c" "C" c.
Proof. case_fold. Qed.

Lemma lower_char_h : forall c, lower_char c = "h"%char <-> letter "h" "H" c.
Proof. case_fold. Qed.

Lemma lowered_arm (m : string) :
  (exists rest, lower m = "arm" +:+ rest) <->
  exists c1 c2 c3 rest,
    m = String c1 (String c2 (String c3 rest)) /\
    letter "a" "A" c1 /\ letter "r" "R" c2 /\ letter "m" "M" c3.
Proof.
  split.
  - intros [rest H].
    change ("arm" +:+ rest)
      with (String "a" (String "r" (String "m" rest))) in H.
    destruct m as [|c1 [|c2 [|c3 tail]]]; try discriminate H.
    simpl in H. injection H as H1 H2 H3 _.
    exists c1, c2, c3, tail. split; [reflexivity|].
    now rewrite <- lower_char_a, <- lower_char_r, <- lower_char_m.
  - intros (c1 & c2 & c3 & rest & -> & H1 & H2 & H3).
    apply lower_char_a in H1. apply lower_char_r in H2.
    apply lower_char_m in H3.
    exists (lower rest). simpl. now rewrite H1, H2, H3.
Qed.

Lemma lowered_aarch (m : string) :
  (exists rest, lower m = "aarch" +:+ rest) <->
  exists c1 c2 c3 c4 c5 rest,
    m = String c1 (String c2 (String c3 (String c4 (String c5 rest)))) /\
    letter "a" "A" c1 /\ letter "a" "A" c2 /\ letter "r" "R" c3 /\
    letter "c" "C" c4 /\ letter "h" "H" c5.
Proof.
  split.
  - intros [rest H].
    change ("aarch" +:+ rest)
      with (String "a" (String "a" (String "r" (String "c"
              (String "h" rest))))) in H.
    destruct m as [|c1 [|c2 [|c3 [|c4 [|c5 tail]]]]]; try discriminate H.
    simpl in H. injection H as H1 H2 H3 H4 H5 _.
    exists c1, c2, c3, c4, c5, tail. split; [reflexivity|].
    now rewrite <- !lower_char_a, <- lower_char_r, <- lower_char_c,
      <- lower_char_h.
  - intros (c1 & c2 & c3 & c4 & c5 & rest & -> & H1 & H2 & H3 & H4 & H5).
    apply lower_char_a in H1, H2. apply lower_char_r in H3.
    apply lower_char_c in H4. apply lower_char_h in H5.
    exists (lower rest). simpl. now rewrite H1, H2, H3, H4, H5.
Qed.

(** C8. [machine_is_arm] always returns a boolean and leaves the world as
    it was; the boolean is [true] exactly when the lowercased machine
    string starts with "arm" or with "aarch", that is, when the machine
    string itself starts with some casing of "arm" or of "aarch": its
    first three characters are a or A, r or R, m or M, or its first five
    are a or A, a or A, r or R, c or C, h or H.  Every other string gives
    [false]. *)
Theorem machine_is_arm_spec (w : world) :
  exists b : bool,
    machine_is_arm E w = (inr b, w) /\
    (b = true <->
       (exists rest, lower (machine E) = "arm" +:+ rest) \/
       (exists rest, lower (machine E) = "aarch" +:+ rest)) /\
    (b = true <->
       exists p rest, machine E = p +:+ rest /\
                      (lower p = "arm" \/ lower p = "aarch")) /\
    (b = true <->
       (exists c1 c2 c3 rest,
           machine E = String c1 (String c2 (String c3 rest)) /\
           (c1 = "a" \/ c1 = "A")%char /\
           (c2 = "r" \/ c2 = "R")%char /\
           (c3 = "m" \/ c3 = "M")%char)
       \/
       (exists c1 c2 c3 c4 c5 rest,
           machine E
           = String c1 (String c2 (String c3 (String c4 (String c5 rest))))
           /\
           (c1 = "a" \/ c1 = "A")%char /\
           (c2 = "a" \/ c2 = "A")%char /\
           (c3 = "r" \/ c3 = "R")%char /\
           (c4 = "c" \/ c4 = "C")%char /\
           (c5 = "h" \/ c5 = "H")%char)).
Proof.
  exists (startswith (lower (machine E)) "arm"
          || startswith (lower (machine E)) "aarch").
  split; [reflexivity|].
  assert (Hlow : (startswith (lower (machine E)) "arm"
                  || startswith (lower (machine E)) "aarch") = true <->
                 (exists rest, lower (machine E) = "arm" +:+ rest) \/
                 (exists rest, lower (machine E) = "aarch" +:+ rest)).
  { now rewrite orb_true_iff, !startswith_spec. }
  split; [exact Hlow|]. split.
  - rewrite Hlow, !lowered_prefix. split.
    + intros [(p & rest & H & Hp) | (p & rest & H & Hp)];
        exists p, rest; auto.
    + intros (p & rest & H & [Hp | Hp]); [left | right]; now exists p, rest.
  - rewrite Hlow, lowered_arm, lowered_aarch. reflexivity.
Qed.

End Architecture.

Example machine_is_arm_samples :
  map (fun m => fst (machine_is_arm (Demo.with_machine m Demo.demo) Demo.w0))
      ["aarch64"; "AArch64"; "ARMv7l"; "armhf"; "x86_64"; "ar"; ""; "alarm"]
  = map inr [true; true; true; true; false; false; false; false].
Proof. reflexivity. Qed.

(** ** The local user check *)

Section Users.
Context (E : environment).

Lemma linux_user_exists_cases (user : pyobj) (w : world) :
  linux_user_exists E user w =
    if is_arg user then
      match spawn E (getent user) None with
      | NotStarted e => (inl (Foreign e), add_command (getent user) None w)
      | Exited code =>
          (inr (code =? 0)%Z, add_command (getent user) None w)
      end
    else (inl TypeError, w).
Proof.
  unfold linux_user_exists, except_CalledProcessError, bind, check_call, ret.
  fold (getent user).
  change (forallb is_arg (getent user)) with (is_arg user && true).
  rewrite andb_true_r.
  destruct (is_arg user); [|reflexivity].
  destruct (spawn E (getent user) None) as [e|code]; [reflexivity|].
  now destruct (code =? 0)%Z.
Qed.

(** C10. [linux_user_exists] returns [False] exactly when the lookup
    command ran and exited with a non-zero code; when the command could
    not be started, the exception of the launch reaches the caller. *)
Theorem linux_user_exists_false_only_on_exit (user : pyobj) (w : world) :
  (fst (linux_user_exists E user w) = inr false <->
     is_arg user = true /\
     exists code, spawn E (getent user) None = Exited code /\ code <> 0%Z)
  /\
  (forall e, is_arg user = true ->
             spawn E (getent user) None = NotStarted e ->
             fst (linux_user_exists E user w) = inl (Foreign e)).
Proof.
  rewrite linux_user_exists_cases. split.
  - destruct (is_arg user).
    + destruct (spawn E (getent user) None) as [e|code]; simpl.
      * split; [discriminate|]. intros [_ (code & H & _)]. discriminate.
      * split.
        -- intros H. split; [reflexivity|]. exists code.
           split; [reflexivity|]. injection H as H. now apply Z.eqb_neq.
        -- intros [_ (code' & H & Hne)]. injection H as <-.
           apply Z.eqb_neq in Hne. now rewrite Hne.
    + simpl. split; [discriminate|]. now intros [? _].
  - intros e -> ->. reflexivity.
Qed.

End Users.

Example linux_user_exists_samples :
  map (fun user => fst (linux_user_exists Demo.demo user Demo.w0))
      [PyStr "root"; PyStr "nobody-here"; PyInt 3]
  = [inr true; inr false; inl TypeError].
Proof. reflexivity. Qed.

(** A user that [getent] does not know gives [False]; without a [getent]
    executable the call raises instead of answering. *)
Lemma linux_user_exists_false_only_on_exit_example :
  fst (linux_user_exists Demo.demo (PyStr "nobody-here") Demo.w0) = inr false
  /\
  fst (linux_user_exists (Demo.without_commands Demo.demo) (PyStr "root")
         Demo.w0)
  = inl (Foreign Demo.no_such_file).
Proof.
  split.
  - apply (linux_user_exists_false_only_on_exit Demo.demo
             (PyStr "nobody-here") Demo.w0).
    split; [reflexivity|]. exists 2%Z. split; [reflexivity | lia].
  - apply (linux_user_exists_false_only_on_exit
             (Demo.without_commands Demo.demo) (PyStr "root") Demo.w0);
      reflexivity.
Defined.

(** ** Package operations *)

Section Packages.
Context (E : environment).

Lemma comprehension_as_str (parts : list string) :
  comprehension as_str (map PyStr parts) = inr parts.
Proof.
  induction parts as [|x parts IH]; [reflexivity|].
  simpl. now rewrite IH.
Qed.

Lemma str_join_list (sep : string) (parts : list string) :
  str_join sep (PyList (map PyStr parts)) = inr (join sep parts).
Proof. unfold str_join. simpl. now rewrite comprehension_as_str. Qed.

Lemma apt_satisfy_str (s : string) (w : world) :
  apt_satisfy E (PyStr s) w =
    check_call E (apt_satisfy_cmd s) (Some (noninteractive E)) w.
Proof. reflexivity. Qed.

Lemma apt_satisfy_list (parts : list string) (w : world) :
  apt_satisfy E (PyList (map PyStr parts)) w =
    check_call E (apt_satisfy_cmd (join ", " parts))
      (Some (noninteractive E)) w.
Proof.
  unfold apt_satisfy, bind, lift, ret. simpl.
  now rewrite str_join_list.
Qed.

Lemma check_call_commands (cmd : list pyobj)
    (env : option (gmap string string)) (w : world) :
  forallb is_arg cmd = true ->
  commands (snd (check_call E cmd env w)) = (commands w ++ [(cmd, env)])%list.
Proof.
  intros H. unfold check_call. rewrite H.
  destruct (spawn E cmd env) as [e|code]; [reflexivity|].
  now destruct (code =? 0)%Z.
Qed.

(** C7. A single specification string and the one-element sequence that
    holds it make [apt_satisfy] behave the same, with the same
    specification argument; a sequence of strings is handed over as its
    elements joined with ", " in input order, as the fourth argument of
    one [apt satisfy -y] command run with DEBIAN_FRONTEND set. *)
Theorem apt_satisfy_specification :
  (forall (s : string) (w : world),
      apt_satisfy E (PyStr s) w = apt_satisfy E (PyList [PyStr s]) w /\
      commands (snd (apt_satisfy E (PyStr s) w))
      = (commands w ++ [(apt_satisfy_cmd s, Some (noninteractive E))])%list)
  /\
  (forall (parts : list string) (w : world),
      commands (snd (apt_satisfy E (PyList (map PyStr parts)) w))
      = (commands w
           ++ [(apt_satisfy_cmd (String.concat ", " parts),
                Some (noninteractive E))])%list)
  /\
  String.concat ", " ["a"; "b"] = "a, b".
Proof.
  split; [|split; [|reflexivity]].
  - intros s w. split.
    + rewrite apt_satisfy_str.
      change [PyStr s] with (map PyStr [s]).
      now rewrite apt_satisfy_list.
    + rewrite apt_satisfy_str. now apply check_call_commands.
  - intros parts w. rewrite apt_satisfy_list.
    now apply check_call_commands.
Qed.

End Packages.

Example apt_satisfy_two :
  commands (snd (apt_satisfy Demo.demo (PyList [PyStr "a"; PyStr "b"]) Demo.w0))
  = [([PyStr "apt"; PyStr "satisfy"; PyStr "-y"; PyStr "a, b"],
      Some (<["DEBIAN_FRONTEND" := "noninteractive"]> (environ Demo.demo)))].
Proof. reflexivity. Qed.

(** A sequence with an element that is not a string is refused before any
    command is run. *)
Example apt_satisfy_not_a_string :
  apt_satisfy Demo.demo (PyList [PyStr "a"; PyInt 1]) Demo.w0
  = (inl TypeError, Demo.w0).
Proof. reflexivity. Qed.

(** ** Decimal numerals *)

Section Decimal.






End Decimal.

(** ** Requests and their status check *)

Section Requests.
Context (E : environment).

Lemma urlopen_reply (u : string) (w : world) (response : http_response) :
  net_reply E (requests w) u = inr response ->
  urlopen E (PyStr u) w = (inr response, add_request u w).
Proof. intros H. unfold urlopen. now rewrite H. Qed.









Lemma lookup_runs (w : world) (url : string) (info : pyobj) :
  lookup_yields E w url info ->
  exists response data,
    urlopen E (PyStr url) w = (inr response, add_request url w) /\
    negb (status response =? 200)%Z = false /\
    read response = inr data /\
    json_decode E data = inr info.
Proof.
  intros (response & data & Hreply & Hstatus & Hread & Hjson).
  exists response, data. repeat split; trivial.
  - now apply urlopen_reply.
  - now rewrite Hstatus.
Qed.

Lemma comprehension_tags (releases tags : list pyobj) :
  map tag_of releases = map Some tags ->
  comprehension (fun release => getitem release "tag_name") releases
  = inr tags.
Proof.
  revert tags. induction releases as [|r releases IH]; intros [|t tags] H;
    try discriminate; [reflexivity|].
  injection H as Hr Hrest. simpl.
  destruct r; try discriminate. simpl in Hr |- *.
  rewrite Hr. simpl. now rewrite (IH _ Hrest).
Qed.

(** C5. When the listing is answered with status 200 and a body that
    decodes to an array of release objects, [gh_list_releases] returns
    the [tag_name] of each element, in the order of the array and as many
    as the array has elements. *)
Theorem gh_list_releases_tags (user repo : string) (w : world)
    (releases tags : list pyobj) :
  lookup_yields E w (releases_url user repo) (PyList releases) ->
  map tag_of releases = map Some tags ->
  gh_list_releases E user repo w
  = (inr tags, add_request (releases_url user repo) w)
  /\ length tags = length releases.
Proof.
  intros Hlookup Htags. split.
  - destruct (lookup_runs _ _ _ Hlookup)
      as (response & data & Hopen & Hstatus & Hread & Hjson).
    unfold gh_list_releases, bind, lift_foreign, lift.
    rewrite Hopen, Hstatus, Hread, Hjson. simpl.
    now rewrite (comprehension_tags _ _ Htags).
  - apply (f_equal (@length _)) in Htags.
    now rewrite !length_map in Htags.
Qed.

End Requests.

Lemma gh_list_releases_tags_example :
  gh_list_releases Demo.demo "o" "p" Demo.w0
  = (inr [PyStr "v1"; PyStr "v2"],
     add_request "https://api.github.com/repos/o/p/releases" Demo.w0)
  /\ length [PyStr "v1"; PyStr "v2"] = 2.
Proof.
  apply (gh_list_releases_tags Demo.demo "o" "p" Demo.w0
           [PyDict [("tag_name", PyStr "v1")];
            PyDict [("tag_name", PyStr "v2")]]
           [PyStr "v1"; PyStr "v2"]).
  - exists (HttpResponse 200 (inr (Demo.body Demo.releases_text))),
      (Demo.body Demo.releases_text).
    repeat split; vm_compute; reflexivity.
  - reflexivity.
Defined.


(** ** The scan of the asset list *)

Section Scan.
Variable extension : string.

Lemma passed_over_step (asset : pyobj) (rest : list pyobj) :
  passed_over extension asset = true ->
  find_asset_url (asset :: rest) extension = find_asset_url rest extension.
Proof.
  unfold passed_over, has_name, name_matches. simpl.
  destruct (getitem asset "name") as [e|[]]; simpl; try discriminate.
  now destruct (endswith s extension).
Qed.

Lemma matching_step (asset : pyobj) (rest : list pyobj) :
  name_matches extension asset = true ->
  find_asset_url (asset :: rest) extension
  = getitem asset "browser_download_url".
Proof.
  unfold name_matches. simpl.
  destruct (getitem asset "name") as [e|[]]; simpl; try discriminate.
  now intros ->.
Qed.

Lemma find_asset_url_first (before : list pyobj) (asset : pyobj)
    (after : list pyobj) :
  forallb (passed_over extension) before = true ->
  name_matches extension asset = true ->
  find_asset_url (before ++ asset :: after) extension
  = getitem asset "browser_download_url".
Proof.
  intros Hbefore Hmatch.
  induction before as [|x before IH].
  - now apply matching_step.
  - simpl in Hbefore. apply andb_true_iff in Hbefore as [Hx Hbefore].
    change ((x :: before) ++ asset :: after)%list
      with (x :: (before ++ asset :: after))%list.
    rewrite (passed_over_step _ _ Hx). now apply IH.
Qed.

Lemma name_matches_spec (asset : pyobj) :
  name_matches extension asset = true <->
  exists name front,
    getitem asset "name" = inr (PyStr name) /\ name = front +:+ extension.
Proof.
  unfold name_matches. split.
  - destruct (getitem asset "name") as [e|[]]; try discriminate.
    intros H. apply endswith_spec in H as [front ->]. now eexists _, front.
  - intros (name & front & -> & ->). apply endswith_spec. now exists front.
Qed.

Lemma no_match_spec (assets : list pyobj) :
  existsb (name_matches extension) assets = false <->
  forall asset name,
    In asset assets ->
    getitem asset "name" = inr (PyStr name) ->
    ~ exists front, name = front +:+ extension.
Proof.
  split.
  - intros Hno asset name Hin Hname [front ->].
    assert (Hsome : existsb (name_matches extension) assets = true).
    { apply existsb_exists. exists asset. split; [exact Hin|].
      apply name_matches_spec. exists (front +:+ extension), front.
      split; [exact Hname | reflexivity]. }
    congruence.
  - intros Hno. apply not_true_is_false. intros Hsome.
    apply existsb_exists in Hsome as (asset & Hin & Hmatch).
    apply name_matches_spec in Hmatch as (name & front & Hname & ->).
    apply (Hno asset _ Hin Hname). now exists front.
Qed.

Lemma passed_over_spec (asset : pyobj) :
  passed_over extension asset = true <->
  exists name,
    getitem asset "name" = inr (PyStr name) /\
    ~ exists front, name = front +:+ extension.
Proof.
  unfold passed_over, has_name, name_matches. split.
  - destruct (getitem asset "name") as [e|[]]; try discriminate.
    simpl. intros H. exists s. split; [reflexivity|].
    intros Hends. apply endswith_spec in Hends. rewrite Hends in H.
    discriminate.
  - intros (name & -> & Hno). simpl.
    destruct (endswith name extension) eqn:Hends; [|reflexivity].
    apply endswith_spec in Hends. contradiction.
Qed.

Lemma is_asset_fields (asset : pyobj) :
  is_asset asset = true ->
  exists name u,
    getitem asset "name" = inr (PyStr name) /\
    getitem asset "browser_download_url" = inr (PyStr u).
Proof.
  unfold is_asset.
  destruct (getitem asset "name") as [e|[]]; try discriminate.
  destruct (getitem asset "browser_download_url") as [e|[]];
    try discriminate.
  intros _. now eexists _, _.
Qed.

(** On an asset list that follows the schema the scan finds nothing
    exactly when no name ends with the extension, and otherwise yields a
    string. *)
Lemma find_asset_url_schema (assets : list pyobj) :
  forallb is_asset assets = true ->
  if existsb (name_matches extension) assets
  then exists u, find_asset_url assets extension = inr (PyStr u)
  else find_asset_url assets extension = inr PyNone.
Proof.
  induction assets as [|x assets IH]; intros Hschema; [reflexivity|].
  simpl in Hschema. apply andb_true_iff in Hschema as [Hx Hschema].
  specialize (IH Hschema).
  destruct (is_asset_fields _ Hx) as (name & u & Hname & Hurl).
  cbn [existsb].
  destruct (name_matches extension x) eqn:Hmatch.
  - exists u. now rewrite (matching_step _ _ Hmatch).
  - rewrite passed_over_step; [exact IH|].
    unfold passed_over, has_name. now rewrite Hname, Hmatch.
Qed.

End Scan.

(** ** Opening the output and saving the asset *)

Section Saving.
Context (E : environment).

Lemma append_assoc (a b c : string) : (a +:+ b) +:+ c = a +:+ b +:+ c.
Proof.
  induction a as [|x a IH]; [reflexivity|].
  rewrite !append_cons. now rewrite IH.
Qed.

Lemma temp_path_suffix (suffix : string) (i : nat) :
  endswith (temp_path E suffix i) suffix = true.
Proof.
  apply endswith_spec.
  exists (tempdir E +:+ "/" +:+ "tmp" +:+ random_name E i).
  unfold temp_path. now rewrite !append_assoc.
Qed.

Lemma temp_path_not_empty (suffix : string) (i : nat) :
  temp_path E suffix i <> "".
Proof.
  unfold temp_path. destruct (tempdir E); discriminate.
Qed.

Lemma open_wb_opened (path : string) (w : world) :
  opened w (open_wb E path w).
Proof.
  unfold open_wb. destruct (open_error E path) as [e|].
  - right. now exists e.
  - left. now exists path.
Qed.

Lemma mkstemp_inner_opened (suffix : string) (attempts i : nat) (w : world) :
  opened w (mkstemp_inner E suffix i attempts w).
Proof.
  revert i. induction attempts as [|attempts IH]; intros i; simpl.
  - right. now eexists.
  - destruct (files w !! temp_path E suffix i); [apply IH|].
    apply open_wb_opened.
Qed.

Lemma mkstemp_inner_fresh (suffix : string) (attempts i : nat) (w w' : world)
    (path : string) :
  mkstemp_inner E suffix i attempts w = (inr path, w') ->
  (exists j, path = temp_path E suffix j) /\ files w !! path = None.
Proof.
  revert i. induction attempts as [|attempts IH]; intros i; simpl.
  - discriminate.
  - destruct (files w !! temp_path E suffix i) eqn:Hused; [apply IH|].
    unfold open_wb. destruct (open_error E (temp_path E suffix i));
      [discriminate|].
    intros H. injection H as <- _. split; [now exists i | exact Hused].
Qed.

Lemma open_output_opened (extension : string) (destination : option string)
    (w : world) :
  opened w (open_output E extension destination w).
Proof.
  unfold open_output, NamedTemporaryFile.
  destruct destination as [path|]; [|apply mkstemp_inner_opened].
  destruct (truthy (Some path));
    [apply open_wb_opened | apply mkstemp_inner_opened].
Qed.

Lemma open_output_files (extension : string) (destination : option string)
    (w w' : world) (path : string) :
  open_output E extension destination w = (inr path, w') ->
  w' = set_files (<[path := []]> (files w)) w.
Proof.
  intros H. destruct (open_output_opened extension destination w)
    as [(p & Hp) | (e & He)]; rewrite H in *; [|discriminate].
  now injection Hp as -> ->.
Qed.

(** The body written to a file that has just been opened is its whole
    content. *)
Lemma write_after_open (path : string) (data : bytes) (w : world) :
  write path data (set_files (<[path := []]> (files w)) w)
  = (inr tt, set_files (<[path := data]> (files w)) w).
Proof.
  unfold write, set_files. simpl.
  now rewrite lookup_insert_eq, insert_insert_eq.
Qed.

Lemma save_asset_saved (u extension : string) (destination : option string)
    (w w' : world) (response : http_response) (data : bytes)
    (path : string) :
  net_reply E (requests w) u = inr response ->
  read response = inr data ->
  open_output E extension destination (add_request u w) = (inr path, w') ->
  save_asset E (PyStr u) extension destination w
  = (inr path, set_files (<[path := data]> (files w)) (add_request u w)).
Proof.
  intros Hreply Hread Hopen.
  pose proof (open_output_files _ _ _ _ _ Hopen) as ->.
  unfold save_asset, bind.
  rewrite (urlopen_reply _ _ _ _ Hreply), Hopen.
  unfold lift_foreign. rewrite Hread.
  change (files w) with (files (add_request u w)) at 1.
  now rewrite write_after_open.
Qed.

Lemma save_asset_requests (u extension : string)
    (destination : option string) (w : world) :
  requests (snd (save_asset E (PyStr u) extension destination w))
  = (requests w ++ [u])%list.
Proof.
  unfold save_asset, bind, urlopen.
  destruct (net_reply E (requests w) u) as [e|response]; [reflexivity|].
  destruct (open_output_opened extension destination (add_request u w))
    as [(p & ->) | (e & ->)]; [|reflexivity].
  unfold lift_foreign. now destruct (read response).
Qed.

Lemma save_asset_no_Exception (url : pyobj) (extension : string)
    (destination : option string) (w : world) (msg : string) :
  fst (save_asset E url extension destination w) <> inl (Exception msg).
Proof.
  unfold save_asset, bind.
  destruct (urlopen E url w) as [[e|response] w1] eqn:Hopen.
  - unfold urlopen, raise in Hopen.
    destruct url; try (injection Hopen as <- _; discriminate).
    destruct (net_reply E (requests w) s); [|discriminate].
    injection Hopen as <- _. discriminate.
  - destruct (open_output_opened extension destination w1)
      as [(p & ->) | (e & ->)]; [|discriminate].
    unfold lift_foreign. now destruct (read response).
Qed.

Lemma download_selected (user repo tag extension u : string)
    (destination : option string) (w : world) :
  selects E w user repo tag extension u ->
  gh_download_release_asset E user repo tag extension destination w
  = save_asset E (PyStr u) extension destination
      (add_request (release_url user repo tag) w).
Proof.
  intros (info & field & assets & Hlookup & Hfield & Hiter & Hfind).
  destruct (lookup_runs _ _ _ _ Hlookup)
    as (response & data & Hopen & Hstatus & Hread & Hjson).
  unfold gh_download_release_asset, bind, lift_foreign, lift.
  now rewrite Hopen, Hstatus, Hread, Hjson, Hfield, Hiter, Hfind.
Qed.

Lemma download_saved (user repo tag extension u : string)
    (destination : option string) (w w' : world)
    (response : http_response) (data : bytes) (path : string) :
  selects E w user repo tag extension u ->
  net_reply E (requests w ++ [release_url user repo tag])%list u
  = inr response ->
  read response = inr data ->
  open_output E extension destination
    (add_request u (add_request (release_url user repo tag) w))
  = (inr path, w') ->
  gh_download_release_asset E user repo tag extension destination w
  = (inr path,
     set_files (<[path := data]> (files w))
       (add_request u (add_request (release_url user repo tag) w))).
Proof.
  intros Hsel Hreply Hread Hopen.
  rewrite (download_selected _ _ _ _ _ destination _ Hsel).
  now rewrite (save_asset_saved u extension destination
                 (add_request (release_url user repo tag) w) w'
                 response data path Hreply Hread Hopen).
Qed.

(** An empty string as destination is read as no destination. *)
Lemma empty_destination_is_no_destination (user repo tag extension : string)
    (w : world) :
  gh_download_release_asset E user repo tag extension (Some "") w
  = gh_download_release_asset E user repo tag extension None w.
Proof. reflexivity. Qed.

Lemma open_output_explicit (extension path : string) (w : world) :
  path <> "" ->
  open_error E path = None ->
  open_output E extension (Some path) w
  = (inr path, set_files (<[path := []]> (files w)) w).
Proof.
  intros Hpath Hopen. unfold open_output, truthy.
  apply String.eqb_neq in Hpath. rewrite Hpath. simpl.
  unfold open_wb. now rewrite Hopen.
Qed.

Lemma temporary_file_fresh (extension path : string) (w w' : world) :
  NamedTemporaryFile E extension w = (inr path, w') ->
  endswith path extension = true /\ path <> "" /\ files w !! path = None.
Proof.
  intros H. apply mkstemp_inner_fresh in H as [[j ->] Hfree].
  split; [apply temp_path_suffix|].
  split; [apply temp_path_not_empty | exact Hfree].
Qed.

End Saving.

(** ** The release asset fetcher *)

Section Fetcher.
Context (E : environment).

(** C1. When the asset list of the release holds an asset whose name ends
    with the extension, the one asset used is the first such asset in the
    order of the list: with [before] the assets in front of it (none of
    their names ends with the extension), the call is the download from
    the [browser_download_url] of that asset, the only request after the
    release lookup; the assets [after] it play no part in the outcome.
    The name selected is some front followed by exactly the extension, and
    no earlier name is of that form. *)
Theorem first_matching_asset_is_downloaded
    (user repo tag extension : string) (destination : option string)
    (w : world) (info : pyobj) (before after : list pyobj)
    (asset : pyobj) (u : string) :
  lookup_yields E w (release_url user repo tag) info ->
  getitem info "assets" = inr (PyList (before ++ asset :: after)) ->
  forallb (passed_over extension) before = true ->
  name_matches extension asset = true ->
  getitem asset "browser_download_url" = inr (PyStr u) ->
  find_asset_url (before ++ asset :: after) extension = inr (PyStr u)
  /\
  gh_download_release_asset E user repo tag extension destination w
  = save_asset E (PyStr u) extension destination
      (add_request (release_url user repo tag) w)
  /\
  requests
    (snd (gh_download_release_asset E user repo tag extension destination w))
  = (requests w ++ [release_url user repo tag; u])%list
  /\
  (exists name front,
      getitem asset "name" = inr (PyStr name) /\ name = front +:+ extension)
  /\
  Forall (fun earlier =>
            exists name,
              getitem earlier "name" = inr (PyStr name) /\
              ~ exists front, name = front +:+ extension) before.
Proof.
  intros Hlookup Hassets Hbefore Hmatch Hurl.
  assert (Hfind : find_asset_url (before ++ asset :: after) extension
                  = inr (PyStr u)).
  { now rewrite find_asset_url_first. }
  assert (Hsel : selects E w user repo tag extension u).
  { now exists info, (PyList (before ++ asset :: after)),
      (before ++ asset :: after)%list. }
  split; [exact Hfind|].
  rewrite (download_selected _ _ _ _ _ _ _ _ Hsel).
  split; [reflexivity|].
  split; [rewrite save_asset_requests; simpl; now rewrite <- app_assoc|].
  split; [exact (proj1 (name_matches_spec extension asset) Hmatch)|].
  apply Forall_forall. intros earlier Hin.
  apply (proj1 (passed_over_spec extension earlier)).
  rewrite forallb_forall in Hbefore. apply Hbefore.
  now apply list_elem_of_In.
Qed.

(** C2. For a release whose assets follow the schema, the call raises
    [Exception] with the message "No asset with extension <extension>
    found for release <tag>" if and only if no asset has a name ending
    with the extension; in that case the only request sent is the release
    lookup and the files are untouched. *)
Theorem asset_not_found_iff_no_match
    (user repo tag extension : string) (destination : option string)
    (w : world) (info : pyobj) (assets : list pyobj) :
  lookup_yields E w (release_url user repo tag) info ->
  getitem info "assets" = inr (PyList assets) ->
  forallb is_asset assets = true ->
  (fst (gh_download_release_asset E user repo tag extension destination w)
   = inl (Exception ("No asset with extension " +:+ extension
                       +:+ " found for release " +:+ tag))
   <-> existsb (name_matches extension) assets = false)
  /\
  (existsb (name_matches extension) assets = false ->
   gh_download_release_asset E user repo tag extension destination w
   = (inl (Exception ("No asset with extension " +:+ extension
                        +:+ " found for release " +:+ tag)),
      add_request (release_url user repo tag) w)
   /\ files (add_request (release_url user repo tag) w) = files w
   /\ requests (add_request (release_url user repo tag) w)
      = (requests w ++ [release_url user repo tag])%list)
  /\
  (existsb (name_matches extension) assets = false <->
   forall asset name,
     In asset assets ->
     getitem asset "name" = inr (PyStr name) ->
     ~ exists front, name = front +:+ extension).
Proof.
  intros Hlookup Hassets Hschema.
  pose proof (find_asset_url_schema extension assets Hschema) as Hfind.
  assert (Hnone : existsb (name_matches extension) assets = false ->
            gh_download_release_asset E user repo tag extension destination w
            = (inl (Exception (not_found_message extension tag)),
               add_request (release_url user repo tag) w)).
  { intros Hno. rewrite Hno in Hfind.
    destruct (lookup_runs _ _ _ _ Hlookup)
      as (response & data & Hopen & Hstatus & Hread & Hjson).
    unfold gh_download_release_asset, bind, lift_foreign, lift.
    rewrite Hopen, Hstatus, Hread, Hjson, Hassets. simpl.
    now rewrite Hfind. }
  split; [split|split; [|apply no_match_spec]].
  - intros Hraised.
    destruct (existsb (name_matches extension) assets); [|reflexivity].
    destruct Hfind as [u Hfind]. exfalso.
    assert (Hsel : selects E w user repo tag extension u).
    { now exists info, (PyList assets), assets. }
    rewrite (download_selected _ _ _ _ _ _ destination _ Hsel) in Hraised.
    now apply save_asset_no_Exception in Hraised.
  - intros Hno. now rewrite (Hnone Hno).
  - intros Hno. now rewrite (Hnone Hno).
Qed.


(** C4, as the code has it.  A destination that is not the empty string
    receives exactly the fetched body, whatever it held before, and is
    the path returned.  Without a destination the body goes to a
    temporary file: its path was not in use before the call, ends with
    the extension, holds the body when the call returns, and is the path
    returned. *)
Theorem destination_written_and_returned
    (user repo tag extension u : string) (w : world) (code : Z)
    (data : bytes) :
  selects E w user repo tag extension u ->
  net_reply E (requests w ++ [release_url user repo tag])%list u
  = inr (HttpResponse code (inr data)) ->
  (forall path : string,
      path <> "" ->
      open_error E path = None ->
      gh_download_release_asset E user repo tag extension (Some path) w
      = (inr path,
         set_files (<[path := data]> (files w))
           (add_request u (add_request (release_url user repo tag) w))))
  /\
  (forall (path : string) (w' : world),
      NamedTemporaryFile E extension
        (add_request u (add_request (release_url user repo tag) w))
      = (inr path, w') ->
      gh_download_release_asset E user repo tag extension None w
      = (inr path,
         set_files (<[path := data]> (files w))
           (add_request u (add_request (release_url user repo tag) w)))
      /\ endswith path extension = true
      /\ files w !! path = None).
Proof.
  intros Hsel Hreply. split.
  - intros path Hpath Hopen.
    apply (download_saved E user repo tag extension u (Some path) w
             (set_files (<[path := []]> (files w))
                (add_request u (add_request (release_url user repo tag) w)))
             (HttpResponse code (inr data))); trivial.
    now apply (open_output_explicit E extension path
                 (add_request u (add_request (release_url user repo tag) w))).
  - intros path w' Htemp.
    destruct (temporary_file_fresh E _ _ _ _ Htemp) as (Hsuffix & _ & Hfree).
    split; [|now split].
    now apply (download_saved E user repo tag extension u None w w'
                 (HttpResponse code (inr data))).
Qed.

(** C9. With the empty string as destination nothing is written to the
    path "": the call is the call without a destination, so the body goes
    to a temporary file whose path was not in use, is not empty, ends
    with the extension, and is the path returned. *)
Theorem empty_destination_uses_temporary_file
    (user repo tag extension u : string) (w w' : world) (code : Z)
    (data : bytes) (path : string) :
  selects E w user repo tag extension u ->
  net_reply E (requests w ++ [release_url user repo tag])%list u
  = inr (HttpResponse code (inr data)) ->
  NamedTemporaryFile E extension
    (add_request u (add_request (release_url user repo tag) w))
  = (inr path, w') ->
  gh_download_release_asset E user repo tag extension (Some "") w
  = gh_download_release_asset E user repo tag extension None w
  /\
  gh_download_release_asset E user repo tag extension (Some "") w
  = (inr path,
     set_files (<[path := data]> (files w))
       (add_request u (add_request (release_url user repo tag) w)))
  /\ path <> ""
  /\ endswith path extension = true
  /\ files w !! path = None
  /\ files
       (snd (gh_download_release_asset E user repo tag extension (Some "") w))
       !! "" = files w !! "".
Proof.
  intros Hsel Hreply Htemp.
  destruct (temporary_file_fresh E _ _ _ _ Htemp) as (Hsuffix & Hpath & Hfree).
  assert (Hrun :
    gh_download_release_asset E user repo tag extension (Some "") w
    = (inr path,
       set_files (<[path := data]> (files w))
         (add_request u (add_request (release_url user repo tag) w)))).
  { now apply (download_saved E user repo tag extension u (Some "") w w'
                 (HttpResponse code (inr data))). }
  repeat split; trivial.
  rewrite Hrun. simpl. now apply lookup_insert_ne.
Qed.

End Fetcher.

(** ** The fetcher on the example network *)

(** What comes after the first match is not looked at, whatever it is. *)
Example scan_stops_at_first_match :
  find_asset_url [Demo.asset_x; Demo.asset_y; PyNone; PyInt 3] ".tar.xz"
  = inr (PyStr "https://dl/U").
Proof. reflexivity. Qed.

(** Outside the schema: an asset whose download URL is [null] leaves
    [asset_url] at [None], which the check after the loop cannot tell from
    an empty scan. *)
Example scan_of_null_url :
  let asset := PyDict [("name", PyStr "y.tar.xz");
                       ("browser_download_url", PyNone)] in
  is_asset asset = false /\
  find_asset_url [asset; Demo.asset_z] ".tar.xz" = inr PyNone.
Proof. split; reflexivity. Qed.

(** A name is compared as it is: another case is another name. *)
Example scan_is_case_sensitive :
  find_asset_url [PyDict [("name", PyStr "Y.TAR.XZ");
                          ("browser_download_url", PyStr "https://dl/W")]]
    ".tar.xz"
  = inr PyNone.
Proof. reflexivity. Qed.

Lemma first_matching_asset_is_downloaded_example :
  find_asset_url [Demo.asset_x; Demo.asset_y; Demo.asset_z] ".tar.xz"
  = inr (PyStr "https://dl/U")
  /\
  gh_download_release_asset Demo.demo "o" "p" "v1" ".tar.xz"
    (Some "/srv/new.tar.xz") Demo.w0
  = save_asset Demo.demo (PyStr "https://dl/U") ".tar.xz"
      (Some "/srv/new.tar.xz")
      (add_request "https://api.github.com/repos/o/p/releases/tags/v1" Demo.w0)
  /\
  requests
    (snd (gh_download_release_asset Demo.demo "o" "p" "v1" ".tar.xz"
            (Some "/srv/new.tar.xz") Demo.w0))
  = ["https://api.github.com/repos/o/p/releases/tags/v1"; "https://dl/U"].
Proof.
  destruct (first_matching_asset_is_downloaded Demo.demo "o" "p" "v1"
              ".tar.xz" (Some "/srv/new.tar.xz") Demo.w0 Demo.release_value
              [Demo.asset_x] [Demo.asset_z] Demo.asset_y "https://dl/U")
    as (Hscan & Hrun & Hrequests & _).
  - demo_lookup Demo.release_text.
  - reflexivity.
  - reflexivity.
  - reflexivity.
  - reflexivity.
  - split; [exact Hscan | split; [exact Hrun | exact Hrequests]].
Defined.

Lemma asset_not_found_iff_no_match_example :
  gh_download_release_asset Demo.demo "o" "p" "v0" ".tar.xz"
    (Some "/srv/new.tar.xz") Demo.w0
  = (inl (Exception "No asset with extension .tar.xz found for release v0"),
     add_request "https://api.github.com/repos/o/p/releases/tags/v0" Demo.w0).
Proof.
  destruct (asset_not_found_iff_no_match Demo.demo "o" "p" "v0" ".tar.xz"
              (Some "/srv/new.tar.xz") Demo.w0 Demo.zip_only_value
              [Demo.asset_x]) as (_ & Hnone & _).
  - demo_lookup Demo.zip_only_text.
  - reflexivity.
  - reflexivity.
  - apply Hnone. reflexivity.
Defined.



(** An explicit destination that is the empty string is not the path
    written, nor the path returned: the body goes to a temporary file and
    no file named by the empty string exists afterwards. *)
Lemma explicit_empty_destination_is_not_written :
  fst (gh_download_release_asset Demo.demo "o" "p" "v1" ".tar.xz" (Some "")
         Demo.w0)
  = inr "/tmp/tmpn1.tar.xz"
  /\
  fst (gh_download_release_asset Demo.demo "o" "p" "v1" ".tar.xz" (Some "")
         Demo.w0)
  <> inr ""
  /\
  files
    (snd (gh_download_release_asset Demo.demo "o" "p" "v1" ".tar.xz" (Some "")
            Demo.w0))
    !! "" = None.
Proof.
  assert (H : fst (gh_download_release_asset Demo.demo "o" "p" "v1" ".tar.xz"
                     (Some "") Demo.w0) = inr "/tmp/tmpn1.tar.xz")
    by (vm_compute; reflexivity).
  split; [exact H|]. split.
  - rewrite H. discriminate.
  - vm_compute. reflexivity.
Qed.

Lemma destination_written_and_returned_example :
  gh_download_release_asset Demo.demo "o" "p" "v1" ".tar.xz"
    (Some "/srv/old.tar.xz") Demo.w0
  = (inr "/srv/old.tar.xz",
     set_files (<["/srv/old.tar.xz" := Demo.archive]> (files Demo.w0))
       (add_request "https://dl/U"
          (add_request "https://api.github.com/repos/o/p/releases/tags/v1"
             Demo.w0)))
  /\
  (gh_download_release_asset Demo.demo "o" "p" "v1" ".tar.xz" None Demo.w0
   = (inr "/tmp/tmpn1.tar.xz",
      set_files (<["/tmp/tmpn1.tar.xz" := Demo.archive]> (files Demo.w0))
        (add_request "https://dl/U"
           (add_request "https://api.github.com/repos/o/p/releases/tags/v1"
              Demo.w0)))
   /\ endswith "/tmp/tmpn1.tar.xz" ".tar.xz" = true
   /\ files Demo.w0 !! "/tmp/tmpn1.tar.xz" = None).
Proof.
  destruct (destination_written_and_returned Demo.demo "o" "p" "v1" ".tar.xz"
              "https://dl/U" Demo.w0 200 Demo.archive)
    as [Hexplicit Htemporary].
  - demo_selects; vm_compute; reflexivity.
  - reflexivity.
  - split.
    + apply Hexplicit; [discriminate | reflexivity].
    + apply (Htemporary "/tmp/tmpn1.tar.xz"
               (set_files (<["/tmp/tmpn1.tar.xz" := []]> (files Demo.w0))
                  (add_request "https://dl/U"
                     (add_request
                        "https://api.github.com/repos/o/p/releases/tags/v1"
                        Demo.w0)))).
      vm_compute. reflexivity.
Defined.

Lemma empty_destination_uses_temporary_file_example :
  gh_download_release_asset Demo.demo "o" "p" "v1" ".tar.xz" (Some "") Demo.w0
  = (inr "/tmp/tmpn1.tar.xz",
     set_files (<["/tmp/tmpn1.tar.xz" := Demo.archive]> (files Demo.w0))
       (add_request "https://dl/U"
          (add_request "https://api.github.com/repos/o/p/releases/tags/v1"
             Demo.w0)))
  /\
  files
    (snd (gh_download_release_asset Demo.demo "o" "p" "v1" ".tar.xz" (Some "")
            Demo.w0))
    !! "" = files Demo.w0 !! "".
Proof.
  destruct (empty_destination_uses_temporary_file Demo.demo "o" "p" "v1"
              ".tar.xz" "https://dl/U" Demo.w0
              (set_files (<["/tmp/tmpn1.tar.xz" := []]> (files Demo.w0))
                 (add_request "https://dl/U"
                    (add_request
                       "https://api.github.com/repos/o/p/releases/tags/v1"
                       Demo.w0)))
              200 Demo.archive "/tmp/tmpn1.tar.xz")
    as (_ & Hrun & _ & _ & _ & Hempty).
  - demo_selects; vm_compute; reflexivity.
  - reflexivity.
  - vm_compute. reflexivity.
  - split; [exact Hrun | exact Hempty].
Defined.

(** ** Commands: outcome and footprint *)

Section Commands.
Context (E : environment).

Lemma check_call_outcome (cmd : list pyobj) (env : option (gmap string string))
    (w : world) :
  forallb is_arg cmd = true ->
  check_call E cmd env w
  = (call_outcome (spawn E cmd env), add_command cmd env w).
Proof.
  intros H. unfold check_call, call_outcome. rewrite H.
  destruct (spawn E cmd env) as [e|code]; [reflexivity|].
  now destruct (code =? 0)%Z.
Qed.

Lemma call_outcome_ok (l : launch) :
  call_outcome l = inr tt <-> l = Exited 0.
Proof.
  destruct l as [e|code]; simpl; [split; discriminate|].
  destruct (Z.eqb_spec code 0) as [->|Hne]; split; trivial;
    try discriminate.
  intros H. injection H as H. contradiction.
Qed.

Lemma call_outcome_failed (code : Z) :
  code <> 0%Z -> call_outcome (Exited code) = inl (CalledProcessError code).
Proof. intros H. simpl. apply Z.eqb_neq in H. now rewrite H. Qed.

(** [apt_update] runs the one command [apt-get update] with the inherited
    environment.  It returns exactly when the command exits with 0; another
    exit code reaches the caller as a CalledProcessError with that code, a
    failed launch as the error of the launch. *)
Theorem apt_update_outcome (w : world) :
  snd (apt_update E w)
  = add_command [PyStr "apt-get"; PyStr "update"] None w
  /\
  (fst (apt_update E w) = inr tt <->
   spawn E [PyStr "apt-get"; PyStr "update"] None = Exited 0)
  /\
  (forall code,
      spawn E [PyStr "apt-get"; PyStr "update"] None = Exited code ->
      code <> 0%Z ->
      fst (apt_update E w) = inl (CalledProcessError code))
  /\
  (forall e,
      spawn E [PyStr "apt-get"; PyStr "update"] None = NotStarted e ->
      fst (apt_update E w) = inl (Foreign e)).
Proof.
  unfold apt_update. rewrite check_call_outcome by reflexivity. simpl.
  split; [reflexivity|]. split; [apply call_outcome_ok|]. split.
  - intros code -> Hne. now apply call_outcome_failed.
  - now intros e ->.
Qed.

(** A non-zero exit of [apt satisfy] is not swallowed: for a sequence of
    strings the call returns exactly when the command exits with 0, and
    raises CalledProcessError with the exit code otherwise. *)
Theorem apt_satisfy_outcome (parts : list string) (w : world) :
  (fst (apt_satisfy E (PyList (map PyStr parts)) w) = inr tt <->
   spawn E (apt_satisfy_cmd (String.concat ", " parts))
     (Some (noninteractive E)) = Exited 0)
  /\
  (forall code,
      spawn E (apt_satisfy_cmd (String.concat ", " parts))
        (Some (noninteractive E)) = Exited code ->
      code <> 0%Z ->
      fst (apt_satisfy E (PyList (map PyStr parts)) w)
      = inl (CalledProcessError code)).
Proof.
  rewrite apt_satisfy_list, check_call_outcome by reflexivity.
  unfold join. simpl.
  split; [apply call_outcome_ok|].
  intros code -> Hne. now apply call_outcome_failed.
Qed.

(** Whatever [apt_satisfy] is given, it runs at most one command, an
    [apt satisfy -y] with one more argument, and that command sees
    DEBIAN_FRONTEND=noninteractive, even when the inherited environment
    sets it otherwise, and every other inherited variable unchanged. *)
Theorem apt_satisfy_environment (packages : pyobj) (w : world) :
  (snd (apt_satisfy E packages w) = w
   \/ exists specification env,
        snd (apt_satisfy E packages w)
        = add_command
            [PyStr "apt"; PyStr "satisfy"; PyStr "-y"; specification]
            (Some env) w
        /\ env !! "DEBIAN_FRONTEND" = Some "noninteractive"
        /\ forall name, name <> "DEBIAN_FRONTEND" ->
                        env !! name = environ E !! name).
Proof.
  assert (Hrun : forall specification w0,
    snd (check_call E
           [PyStr "apt"; PyStr "satisfy"; PyStr "-y"; specification]
           (Some (noninteractive E)) w0) = w0
    \/ exists spec' env,
         snd (check_call E
                [PyStr "apt"; PyStr "satisfy"; PyStr "-y"; specification]
                (Some (noninteractive E)) w0)
         = add_command [PyStr "apt"; PyStr "satisfy"; PyStr "-y"; spec']
             (Some env) w0
         /\ env !! "DEBIAN_FRONTEND" = Some "noninteractive"
         /\ forall name, name <> "DEBIAN_FRONTEND" ->
                         env !! name = environ E !! name).
  { intros specification w0. unfold check_call.
    destruct (forallb is_arg _); [|now left].
    right. exists specification, (noninteractive E). split.
    - destruct (spawn E _ _) as [e|code]; [reflexivity|].
      now destruct (code =? 0)%Z.
    - unfold noninteractive. split; [apply lookup_insert_eq|].
      intros name Hname. now apply lookup_insert_ne. }
  unfold apt_satisfy, bind, lift, ret.
  destruct (is_iterish packages) as [e|[]]; [now left| |apply Hrun].
  destruct (str_join ", " packages) as [e|joined]; [now left|apply Hrun].
Qed.

Lemma comprehension_not_str (items : list pyobj) :
  forallb is_str items = false ->
  comprehension as_str items = inl TypeError.
Proof.
  induction items as [|x items IH]; [discriminate|].
  simpl. destruct x; simpl; try reflexivity.
  intros H. now rewrite IH.
Qed.

(** A sequence with an element that is not a [str] is refused with a
    TypeError by the join, before any command is run: the world is left
    as it was. *)
Theorem apt_satisfy_rejects_non_strings (items : list pyobj) (w : world) :
  forallb is_str items = false ->
  apt_satisfy E (PyList items) w = (inl TypeError, w).
Proof.
  intros H. unfold apt_satisfy, bind, lift, str_join. simpl.
  now rewrite (comprehension_not_str _ H).
Qed.

(** [is_iterish] answers [True] exactly for what can be iterated and is
    neither [str] nor [bytes] nor [bytearray]; on the kinds of value
    modelled here it never raises.  So a list and a dict give [True]; a
    string, bytes and a bytearray, which can be iterated, give [False];
    and [None], a bool and an int give [False] through the TypeError that
    is caught. *)
Theorem is_iterish_spec (obj : pyobj) :
  exists answer : bool,
    is_iterish obj = inr answer /\
    (answer = true <->
     (exists elements, py_iter obj = inr elements) /\
     is_string_like obj = false)
    /\ (forall items, is_iterish (PyList items) = inr true)
    /\ (forall entries, is_iterish (PyDict entries) = inr true)
    /\ (forall s, is_iterish (PyStr s) = inr false)
    /\ (forall b, is_iterish (PyBytes b) = inr false
                  /\ is_iterish (PyByteArray b) = inr false)
    /\ is_iterish PyNone = inr false
    /\ (forall n, is_iterish (PyInt n) = inr false)
    /\ (forall b, is_iterish (PyBool b) = inr false).
Proof.
  exists (match py_iter obj with
          | inr _ => negb (is_string_like obj)
          | inl _ => false
          end).
  split; [|split].
  - unfold is_iterish. destruct obj; reflexivity.
  - destruct obj; simpl; split;
      try discriminate; try (intros [[? H] _]; discriminate);
      try (intros [_ H]; discriminate); try (intros _; split; eauto).
  - repeat split.
Qed.

(** [linux_user_exists] answers [True] exactly when the lookup command ran
    and exited with 0; and whenever the command ran to an exit, the one
    command handed over was [getent passwd <user>] with the inherited
    environment. *)
Theorem linux_user_exists_true_iff_exit_0 (user : pyobj) (w : world) :
  (fst (linux_user_exists E user w) = inr true <->
   is_arg user = true /\
   spawn E [PyStr "getent"; PyStr "passwd"; user] None = Exited 0)
  /\
  (forall code,
      is_arg user = true ->
      spawn E [PyStr "getent"; PyStr "passwd"; user] None = Exited code ->
      linux_user_exists E user w
      = (inr (code =? 0)%Z,
         add_command [PyStr "getent"; PyStr "passwd"; user] None w)).
Proof.
  rewrite linux_user_exists_cases. unfold getent. split.
  - destruct (is_arg user); simpl.
    + destruct (spawn E _ None) as [e|code]; simpl.
      * split; [discriminate|]. now intros [_ H].
      * split.
        -- intros H. injection H as H. apply Z.eqb_eq in H. now subst.
        -- intros [_ H]. injection H as ->. reflexivity.
    + split; [discriminate|]. now intros [H _].
  - now intros code -> ->.
Qed.

(** [linux_user_exists] never lets a CalledProcessError out, and a user
    that is neither [str] nor [bytes] is refused with a TypeError before
    any command is run. *)
Theorem linux_user_exists_failures (user : pyobj) (w : world) :
  (forall code,
      fst (linux_user_exists E user w) <> inl (CalledProcessError code))
  /\
  (is_arg user = false -> linux_user_exists E user w = (inl TypeError, w)).
Proof.
  rewrite linux_user_exists_cases. split.
  - intros code. destruct (is_arg user); [|discriminate].
    destruct (spawn E (getent user) None); discriminate.
  - now intros ->.
Qed.

End Commands.

Example apt_update_without_apt_get :
  apt_update Demo.demo Demo.w0
  = (inl (Foreign Demo.no_such_file),
     add_command [PyStr "apt-get"; PyStr "update"] None Demo.w0).
Proof. reflexivity. Qed.

Example apt_satisfy_failing :
  fst (apt_satisfy (Cases.exiting 100) (PyList [PyStr "a"; PyStr "b"]) Demo.w0)
  = inl (CalledProcessError 100).
Proof. reflexivity. Qed.

Lemma apt_satisfy_rejects_non_strings_example :
  apt_satisfy Demo.demo (PyList [PyStr "a"; PyBytes []; PyStr "c"]) Demo.w0
  = (inl TypeError, Demo.w0).
Proof.
  apply (apt_satisfy_rejects_non_strings Demo.demo
           [PyStr "a"; PyBytes []; PyStr "c"] Demo.w0).
  reflexivity.
Defined.

Example apt_satisfy_overrides_frontend :
  map (fun run => (snd run : option (gmap string string))
                    ≫= (fun env => env !! "DEBIAN_FRONTEND"))
      (commands (snd (apt_satisfy (Cases.exiting 0) (PyStr "a") Demo.w0)))
  = [Some "noninteractive"].
Proof. reflexivity. Qed.

(** ** The release lister: failures and footprint *)

Section Lister.
Context (E : environment).

Lemma gh_list_releases_decoded (user repo : string) (w : world)
    (decoded : pyobj) :
  lookup_yields E w (releases_url user repo) decoded ->
  gh_list_releases E user repo w
  = (rbind (py_iter decoded)
       (comprehension (fun release => getitem release "tag_name")),
     add_request (releases_url user repo) w).
Proof.
  intros Hlookup.
  destruct (lookup_runs _ _ _ _ Hlookup)
    as (response & data & Hopen & Hstatus & Hread & Hjson).
  unfold gh_list_releases, bind, lift_foreign, lift.
  rewrite Hopen, Hstatus, Hread, Hjson.
  now destruct (py_iter decoded).
Qed.

Lemma has_tag_getitem (release : pyobj) :
  has_tag release = true ->
  exists tag, getitem release "tag_name" = inr tag.
Proof.
  unfold has_tag, tag_of, getitem.
  destruct release; try discriminate.
  destruct (dict_get entries "tag_name"); [eauto | discriminate].
Qed.

Lemma comprehension_first_error {A B} (f : A -> result B)
    (before : list A) (x : A) (after : list A) (e : exn) :
  Forall (fun y => exists b, f y = inr b) before ->
  f x = inl e ->
  comprehension f (before ++ x :: after) = inl e.
Proof.
  intros Hbefore Hx. induction Hbefore as [|y before [b Hy] _ IH]; simpl.
  - now rewrite Hx.
  - now rewrite Hy, IH.
Qed.

(** A release object without a [tag_name] makes the whole listing fail
    with KeyError 'tag_name', whatever the releases before and after it
    carry: no partial list is returned. *)
Theorem gh_list_releases_missing_tag (user repo : string) (w : world)
    (before after : list pyobj) (entries : list (string * pyobj)) :
  lookup_yields E w (releases_url user repo)
    (PyList (before ++ PyDict entries :: after)) ->
  forallb has_tag before = true ->
  dict_get entries "tag_name" = None ->
  gh_list_releases E user repo w
  = (inl (KeyError "tag_name"), add_request (releases_url user repo) w).
Proof.
  intros Hlookup Hbefore Hmissing.
  rewrite (gh_list_releases_decoded _ _ _ _ Hlookup). simpl.
  rewrite (comprehension_first_error _ before (PyDict entries) after
             (KeyError "tag_name")); [reflexivity| |].
  - apply Forall_forall. intros release Hin. apply has_tag_getitem.
    rewrite forallb_forall in Hbefore. apply Hbefore.
    now apply list_elem_of_In.
  - simpl. now rewrite Hmissing.
Qed.

(** When the body decodes to an object with at least one member instead
    of an array, the comprehension walks over its keys, and subscripting
    the first key, a string, with 'tag_name' raises TypeError. *)
Theorem gh_list_releases_object_body (user repo : string) (w : world)
    (key : string) (value : pyobj) (entries : list (string * pyobj)) :
  lookup_yields E w (releases_url user repo)
    (PyDict ((key, value) :: entries)) ->
  gh_list_releases E user repo w
  = (inl TypeError, add_request (releases_url user repo) w).
Proof.
  intros Hlookup. now rewrite (gh_list_releases_decoded _ _ _ _ Hlookup).
Qed.

Lemma gh_list_releases_world (user repo : string) (w : world) :
  snd (gh_list_releases E user repo w)
  = add_request (releases_url user repo) w.
Proof.
  unfold gh_list_releases, bind, urlopen.
  destruct (net_reply E (requests w) (releases_url user repo))
    as [e|response]; [reflexivity|].
  destruct (negb (status response =? 200)%Z); [reflexivity|].
  unfold lift_foreign, lift.
  destruct (read response) as [e|data]; [reflexivity|].
  destruct (json_decode E data) as [e|decoded]; [reflexivity|].
  now destruct (py_iter decoded).
Qed.

(** In every environment and whatever the outcome, [gh_list_releases]
    sends exactly one request, to the releases URL of the project, writes
    no file and runs no command. *)
Theorem gh_list_releases_footprint (user repo : string) (w : world) :
  requests (snd (gh_list_releases E user repo w))
  = (requests w
       ++ ["https://api.github.com/repos/" +:+ user +:+ "/" +:+ repo
             +:+ "/releases"])%list
  /\ files (snd (gh_list_releases E user repo w)) = files w
  /\ commands (snd (gh_list_releases E user repo w)) = commands w.
Proof. rewrite gh_list_releases_world. repeat split. Qed.

(** [list_paperless_versions] asks for the releases of
    paperless-ngx/paperless-ngx, and nothing else, and on a 200 answer
    that decodes to an array of tagged releases returns their tags in
    order. *)
Theorem list_paperless_versions_request (w : world) :
  requests (snd (list_paperless_versions E w))
  = (requests w
       ++ ["https://api.github.com/repos/paperless-ngx/paperless-ngx/releases"])%list
  /\
  (forall releases tags,
      lookup_yields E w
        "https://api.github.com/repos/paperless-ngx/paperless-ngx/releases"
        (PyList releases) ->
      map tag_of releases = map Some tags ->
      fst (list_paperless_versions E w) = inr tags).
Proof.
  unfold list_paperless_versions. split.
  - now rewrite gh_list_releases_world.
  - intros releases tags Hlookup Htags.
    rewrite (gh_list_releases_decoded gh_paperless_user gh_paperless_repo
               w (PyList releases)) by exact Hlookup.
    simpl. now rewrite (comprehension_tags _ _ Htags).
Qed.

End Lister.

Lemma gh_list_releases_missing_tag_example :
  gh_list_releases Cases.cases "o" "untagged" Demo.w0
  = (inl (KeyError "tag_name"),
     add_request "https://api.github.com/repos/o/untagged/releases" Demo.w0).
Proof.
  apply (gh_list_releases_missing_tag Cases.cases "o" "untagged" Demo.w0
           [PyDict [("tag_name", PyStr "v1")]] []
           [("name", PyStr "draft")]).
  - exists (Cases.page Cases.untagged_text), (Demo.body Cases.untagged_text).
    repeat split; vm_compute; reflexivity.
  - reflexivity.
  - reflexivity.
Defined.

Lemma gh_list_releases_object_body_example :
  gh_list_releases Cases.cases "o" "message" Demo.w0
  = (inl TypeError,
     add_request "https://api.github.com/repos/o/message/releases" Demo.w0).
Proof.
  apply (gh_list_releases_object_body Cases.cases "o" "message" Demo.w0
           "message" (PyStr "Not Found") []).
  exists (Cases.page Cases.message_text), (Demo.body Cases.message_text).
  repeat split; vm_compute; reflexivity.
Defined.

(** ** The release asset fetcher: failures, footprint and postcondition *)

Section FetcherCases.
Context (E : environment).

Lemma download_scan (user repo tag extension : string)
    (destination : option string) (w : world) (info field : pyobj)
    (assets : list pyobj) :
  lookup_yields E w (release_url user repo tag) info ->
  getitem info "assets" = inr field ->
  py_iter field = inr assets ->
  gh_download_release_asset E user repo tag extension destination w
  = match find_asset_url assets extension with
    | inl e => (inl e, add_request (release_url user repo tag) w)
    | inr PyNone =>
        (inl (Exception (not_found_message extension tag)),
         add_request (release_url user repo tag) w)
    | inr asset_url =>
        save_asset E asset_url extension destination
          (add_request (release_url user repo tag) w)
    end.
Proof.
  intros Hlookup Hfield Hiter.
  destruct (lookup_runs _ _ _ _ Hlookup)
    as (response & data & Hopen & Hstatus & Hread & Hjson).
  unfold gh_download_release_asset, bind, lift_foreign, lift.
  rewrite Hopen, Hstatus, Hread, Hjson, Hfield, Hiter.
  now destruct (find_asset_url assets extension) as [e|[]].
Qed.

Lemma find_asset_url_name_error (extension : string) (before : list pyobj)
    (asset : pyobj) (after : list pyobj) (e : exn) :
  forallb (passed_over extension) before = true ->
  getitem asset "name" = inl e ->
  find_asset_url (before ++ asset :: after) extension = inl e.
Proof.
  intros Hbefore Hname. induction before as [|x before IH].
  - simpl. now rewrite Hname.
  - simpl in Hbefore. apply andb_true_iff in Hbefore as [Hx Hbefore].
    change ((x :: before) ++ asset :: after)%list
      with (x :: (before ++ asset :: after))%list.
    rewrite (passed_over_step _ _ _ Hx). now apply IH.
Qed.

(** An asset without a [name] that the scan reaches, every asset before it
    having a name that does not end with the extension, stops the call
    with KeyError 'name': nothing is downloaded, even when a later asset
    would match. *)
Theorem gh_download_asset_without_name
    (user repo tag extension : string) (destination : option string)
    (w : world) (info : pyobj) (before after : list pyobj)
    (entries : list (string * pyobj)) :
  lookup_yields E w (release_url user repo tag) info ->
  getitem info "assets" = inr (PyList (before ++ PyDict entries :: after)) ->
  forallb (passed_over extension) before = true ->
  dict_get entries "name" = None ->
  gh_download_release_asset E user repo tag extension destination w
  = (inl (KeyError "name"), add_request (release_url user repo tag) w).
Proof.
  intros Hlookup Hassets Hbefore Hmissing.
  rewrite (download_scan _ _ _ _ _ _ _ _ _ Hlookup Hassets eq_refl).
  rewrite (find_asset_url_name_error extension before (PyDict entries) after
             (KeyError "name")); trivial.
  simpl. now rewrite Hmissing.
Qed.

(** The first asset whose name ends with the extension is the one used
    even when it has no [browser_download_url]: the call stops with
    KeyError 'browser_download_url' and later matching assets are not
    tried. *)
Theorem gh_download_asset_without_url
    (user repo tag extension : string) (destination : option string)
    (w : world) (info : pyobj) (before after : list pyobj)
    (entries : list (string * pyobj)) :
  lookup_yields E w (release_url user repo tag) info ->
  getitem info "assets" = inr (PyList (before ++ PyDict entries :: after)) ->
  forallb (passed_over extension) before = true ->
  name_matches extension (PyDict entries) = true ->
  dict_get entries "browser_download_url" = None ->
  gh_download_release_asset E user repo tag extension destination w
  = (inl (KeyError "browser_download_url"),
     add_request (release_url user repo tag) w).
Proof.
  intros Hlookup Hassets Hbefore Hmatch Hmissing.
  rewrite (download_scan _ _ _ _ _ _ _ _ _ Hlookup Hassets eq_refl).
  rewrite (find_asset_url_first extension before (PyDict entries) after
             Hbefore Hmatch).
  simpl. now rewrite Hmissing.
Qed.

(** When the first asset whose name ends with the extension carries
    [null] as its download URL, the call reports that no asset with the
    extension was found, although one was, and whatever follows it in the
    list: the [None] stored by the loop is the value the check after the
    loop takes for an empty scan. *)
Theorem gh_download_null_url_reads_as_not_found
    (user repo tag extension : string) (destination : option string)
    (w : world) (info : pyobj) (before after : list pyobj) (asset : pyobj) :
  lookup_yields E w (release_url user repo tag) info ->
  getitem info "assets" = inr (PyList (before ++ asset :: after)) ->
  forallb (passed_over extension) before = true ->
  name_matches extension asset = true ->
  getitem asset "browser_download_url" = inr PyNone ->
  gh_download_release_asset E user repo tag extension destination w
  = (inl (Exception ("No asset with extension " +:+ extension
                       +:+ " found for release " +:+ tag)),
     add_request (release_url user repo tag) w).
Proof.
  intros Hlookup Hassets Hbefore Hmatch Hnull.
  rewrite (download_scan _ _ _ _ _ _ _ _ _ Hlookup Hassets eq_refl).
  now rewrite (find_asset_url_first extension before asset after
                 Hbefore Hmatch), Hnull.
Qed.

(** A release object without an [assets] member stops the call with
    KeyError 'assets' after the lookup; nothing is downloaded. *)
Theorem gh_download_without_assets
    (user repo tag extension : string) (destination : option string)
    (w : world) (entries : list (string * pyobj)) :
  lookup_yields E w (release_url user repo tag) (PyDict entries) ->
  dict_get entries "assets" = None ->
  gh_download_release_asset E user repo tag extension destination w
  = (inl (KeyError "assets"), add_request (release_url user repo tag) w).
Proof.
  intros Hlookup Hmissing.
  destruct (lookup_runs _ _ _ _ Hlookup)
    as (response & data & Hopen & Hstatus & Hread & Hjson).
  unfold gh_download_release_asset, bind, lift_foreign, lift.
  rewrite Hopen, Hstatus, Hread, Hjson. simpl. now rewrite Hmissing.
Qed.

Lemma endswith_empty (s : string) : endswith s "" = true.
Proof.
  apply endswith_spec. exists s.
  induction s as [|c s IH]; [reflexivity|].
  now rewrite append_cons, <- IH.
Qed.

(** With the empty string as extension every name matches, so the first
    asset of the list is the one downloaded, whatever its name. *)
Theorem gh_download_empty_extension_takes_first
    (user repo tag : string) (destination : option string) (w : world)
    (info asset : pyobj) (rest : list pyobj) (name u : string) :
  lookup_yields E w (release_url user repo tag) info ->
  getitem info "assets" = inr (PyList (asset :: rest)) ->
  getitem asset "name" = inr (PyStr name) ->
  getitem asset "browser_download_url" = inr (PyStr u) ->
  gh_download_release_asset E user repo tag "" destination w
  = save_asset E (PyStr u) "" destination
      (add_request (release_url user repo tag) w).
Proof.
  intros Hlookup Hassets Hname Hurl.
  rewrite (download_scan _ _ _ _ _ _ _ _ _ Hlookup Hassets eq_refl).
  rewrite (matching_step "" asset rest).
  - now rewrite Hurl.
  - unfold name_matches. rewrite Hname. apply endswith_empty.
Qed.

End FetcherCases.

Section FetcherEffects.
Context (E : environment).

Lemma save_asset_unreachable (u extension : string)
    (destination : option string) (w : world) (e : foreign_error) :
  net_reply E (requests w) u = inl e ->
  save_asset E (PyStr u) extension destination w
  = (inl (Foreign e), add_request u w).
Proof. intros H. unfold save_asset, bind, urlopen. now rewrite H. Qed.

(** When the request for the selected asset fails, the error reaches the
    caller and no file has been opened: a destination that exists keeps
    its content, and no temporary file is left behind. *)
Theorem failed_asset_request_touches_no_file
    (user repo tag extension u : string) (destination : option string)
    (w : world) (e : foreign_error) :
  selects E w user repo tag extension u ->
  net_reply E (requests w ++ [release_url user repo tag])%list u = inl e ->
  gh_download_release_asset E user repo tag extension destination w
  = (inl (Foreign e),
     add_request u (add_request (release_url user repo tag) w))
  /\
  files
    (snd (gh_download_release_asset E user repo tag extension destination w))
  = files w.
Proof.
  intros Hsel Hreply.
  rewrite (download_selected _ _ _ _ _ _ destination _ Hsel).
  rewrite (save_asset_unreachable u extension destination
             (add_request (release_url user repo tag) w) e Hreply).
  now split.
Qed.

(** The output is opened before the body is read: when reading the body
    fails, the error reaches the caller and the output is left on disk
    empty, so a destination that existed has lost its content. *)
Theorem failed_read_leaves_empty_output
    (user repo tag extension u : string) (destination : option string)
    (w w' : world) (code : Z) (e : foreign_error) (path : string) :
  selects E w user repo tag extension u ->
  net_reply E (requests w ++ [release_url user repo tag])%list u
  = inr (HttpResponse code (inl e)) ->
  open_output E extension destination
    (add_request u (add_request (release_url user repo tag) w))
  = (inr path, w') ->
  fst (gh_download_release_asset E user repo tag extension destination w)
  = inl (Foreign e)
  /\
  files
    (snd (gh_download_release_asset E user repo tag extension destination w))
  = <[path := []]> (files w).
Proof.
  intros Hsel Hreply Hopen.
  pose proof (open_output_files _ _ _ _ _ _ Hopen) as ->.
  rewrite (download_selected _ _ _ _ _ _ destination _ Hsel).
  unfold save_asset, bind.
  rewrite (urlopen_reply E u
             (add_request (release_url user repo tag) w) _ Hreply), Hopen. simpl. now split.
Qed.

(** When the destination cannot be opened, the error of [open] reaches
    the caller after both requests have been sent, and no file is
    changed. *)
Theorem unwritable_destination_fails_after_request
    (user repo tag extension u path : string) (w : world)
    (response : http_response) (e : foreign_error) :
  selects E w user repo tag extension u ->
  net_reply E (requests w ++ [release_url user repo tag])%list u
  = inr response ->
  path <> "" ->
  open_error E path = Some e ->
  gh_download_release_asset E user repo tag extension (Some path) w
  = (inl (Foreign e),
     add_request u (add_request (release_url user repo tag) w)).
Proof.
  intros Hsel Hreply Hpath Hopen.
  rewrite (download_selected _ _ _ _ _ _ (Some path) _ Hsel).
  unfold save_asset, bind.
  rewrite (urlopen_reply E u
             (add_request (release_url user repo tag) w) _ Hreply).
  unfold open_output, truthy. apply String.eqb_neq in Hpath.
  rewrite Hpath. simpl. unfold open_wb. now rewrite Hopen.
Qed.

(** What a call of [save_asset] can have done to the world. *)
Lemma save_asset_world (asset_url : pyobj) (extension : string)
    (destination : option string) (w : world) :
  commands (snd (save_asset E asset_url extension destination w))
  = commands w
  /\
  (requests (snd (save_asset E asset_url extension destination w))
   = requests w
   \/ exists u,
        requests (snd (save_asset E asset_url extension destination w))
        = (requests w ++ [u])%list)
  /\
  (files (snd (save_asset E asset_url extension destination w)) = files w
   \/ exists path data,
        files (snd (save_asset E asset_url extension destination w))
        = <[path := data]> (files w)).
Proof.
  unfold save_asset, bind, urlopen.
  destruct asset_url; try (simpl; now auto).
  destruct (net_reply E (requests w) s) as [e|response].
  { simpl. split; [reflexivity|]. split; [right; now exists s | now left]. }
  destruct (open_output_opened E extension destination (add_request s w))
    as [(path & ->) | (e & ->)].
  - unfold lift_foreign. destruct (read response) as [e|data]; simpl.
    + split; [reflexivity|]. split; [right; now exists s|].
      right. now exists path, [].
    + split; [reflexivity|]. split; [right; now exists s|].
      right. exists path, data.
      now rewrite lookup_insert_eq, insert_insert_eq.
  - simpl. split; [reflexivity|]. split; [right; now exists s | now left].
Qed.

(** In every environment and whatever the outcome,
    [gh_download_release_asset] runs no command, sends the release lookup
    and at most one more request, and changes at most one file. *)
Theorem gh_download_release_asset_footprint
    (user repo tag extension : string) (destination : option string)
    (w : world) :
  commands
    (snd (gh_download_release_asset E user repo tag extension destination w))
  = commands w
  /\
  (requests
     (snd (gh_download_release_asset E user repo tag extension destination w))
   = (requests w ++ [release_url user repo tag])%list
   \/ exists u,
        requests
          (snd (gh_download_release_asset E user repo tag extension
                  destination w))
        = (requests w ++ [release_url user repo tag; u])%list)
  /\
  (files
     (snd (gh_download_release_asset E user repo tag extension destination w))
   = files w
   \/ exists path data,
        files
          (snd (gh_download_release_asset E user repo tag extension
                  destination w))
        = <[path := data]> (files w)).
Proof.
  assert (Hstop : forall (r : result string),
    let w1 := add_request (release_url user repo tag) w in
    commands (snd (r, w1)) = commands w /\
    (requests (snd (r, w1)) = (requests w ++ [release_url user repo tag])%list
     \/ exists u, requests (snd (r, w1))
                  = (requests w ++ [release_url user repo tag; u])%list) /\
    (files (snd (r, w1)) = files w
     \/ exists path data, files (snd (r, w1)) = <[path := data]> (files w))).
  { intros r. simpl. split; [reflexivity|]. split; now left. }
  unfold gh_download_release_asset, bind, urlopen.
  destruct (net_reply E (requests w) (release_url user repo tag))
    as [e|response]; [apply Hstop|].
  destruct (negb (status response =? 200)%Z); [apply Hstop|].
  unfold lift_foreign, lift.
  destruct (read response) as [e|data]; [apply Hstop|].
  destruct (json_decode E data) as [e|info]; [apply Hstop|].
  destruct (getitem info "assets") as [e|field]; [apply Hstop|].
  destruct (py_iter field) as [e|assets]; [apply Hstop|].
  destruct (find_asset_url assets extension) as [e|asset_url]; [apply Hstop|].
  assert (Hsave :
    let w' := snd (save_asset E asset_url extension destination
                     (add_request (release_url user repo tag) w)) in
    commands w' = commands w /\
    (requests w' = (requests w ++ [release_url user repo tag])%list
     \/ exists u, requests w'
                  = (requests w ++ [release_url user repo tag; u])%list) /\
    (files w' = files w
     \/ exists path data, files w' = <[path := data]> (files w))).
  { destruct (save_asset_world asset_url extension destination
                (add_request (release_url user repo tag) w))
      as (Hc & Hr & Hf).
    split; [exact Hc|]. split; [|exact Hf].
    destruct Hr as [Hr | [u Hr]]; [left; exact Hr|].
    right. exists u. rewrite Hr. simpl. now rewrite <- app_assoc. }
  destruct asset_url; first [exact Hsave | apply Hstop].
Qed.

Lemma save_asset_returns (asset_url : pyobj) (extension : string)
    (destination : option string) (w w' : world) (path : string) :
  save_asset E asset_url extension destination w = (inr path, w') ->
  exists u response data w2,
    asset_url = PyStr u /\
    net_reply E (requests w) u = inr response /\
    read response = inr data /\
    open_output E extension destination (add_request u w) = (inr path, w2) /\
    w' = set_files (<[path := data]> (files w)) (add_request u w).
Proof.
  unfold save_asset, bind, urlopen, raise.
  destruct asset_url; try discriminate.
  destruct (net_reply E (requests w) s) as [e|response] eqn:Hreply;
    [discriminate|].
  destruct (open_output E extension destination (add_request s w))
    as [[e|output] w2] eqn:Hopen; [discriminate|].
  pose proof (open_output_files _ _ _ _ _ _ Hopen) as ->.
  unfold lift_foreign.
  destruct (read response) as [e|data] eqn:Hread; [discriminate|].
  change (files (add_request s w)) with (files w).
  replace (write output data
             (set_files (<[output := []]> (files w)) (add_request s w)))
    with (inr tt : result unit,
          set_files (<[output := data]> (files w)) (add_request s w)).
  - unfold ret. intros H. injection H as <- <-.
    exists s, response, data,
      (set_files (<[output := []]> (files w)) (add_request s w)).
    repeat split; trivial.
  - symmetry. apply (write_after_open output data (add_request s w)).
Qed.

Lemma open_output_path (extension : string) (destination : option string)
    (w w' : world) (path : string) :
  open_output E extension destination w = (inr path, w') ->
  (truthy destination = true -> destination = Some path) /\
  (truthy destination = false ->
   endswith path extension = true /\ path <> "" /\ files w !! path = None).
Proof.
  unfold open_output. destruct destination as [d|].
  - destruct (truthy (Some d)) eqn:Htruthy.
    + unfold open_wb. destruct (open_error E d); [discriminate|].
      intros H. injection H as <- _. split; [reflexivity | discriminate].
    + intros H. split; [discriminate|]. intros _.
      now apply (temporary_file_fresh E extension path w w').
  - intros H. split; [discriminate|]. intros _.
    now apply (temporary_file_fresh E extension path w w').
Qed.

Lemma download_returns (user repo tag extension : string)
    (destination : option string) (w w' : world) (path : string) :
  gh_download_release_asset E user repo tag extension destination w
  = (inr path, w') ->
  exists u code data,
    net_reply E (requests w ++ [release_url user repo tag])%list u
    = inr (HttpResponse code (inr data)) /\
    requests w' = (requests w ++ [release_url user repo tag; u])%list /\
    files w' = <[path := data]> (files w) /\
    commands w' = commands w /\
    (truthy destination = true -> destination = Some path) /\
    (truthy destination = false ->
     endswith path extension = true /\ path <> "" /\ files w !! path = None).
Proof.
  unfold gh_download_release_asset, bind, urlopen, raise.
  destruct (net_reply E (requests w) (release_url user repo tag))
    as [e|response]; [discriminate|].
  destruct (negb (status response =? 200)%Z); [discriminate|].
  unfold lift_foreign, lift.
  destruct (read response) as [e|data]; [discriminate|].
  destruct (json_decode E data) as [e|info]; [discriminate|].
  destruct (getitem info "assets") as [e|field]; [discriminate|].
  destruct (py_iter field) as [e|assets]; [discriminate|].
  destruct (find_asset_url assets extension) as [e|asset_url];
    [discriminate|].
  intros H.
  assert (Hsave : save_asset E asset_url extension destination
                    (add_request (release_url user repo tag) w)
                  = (inr path, w')).
  { destruct asset_url; try exact H. discriminate. }
  clear H.
  destruct (save_asset_returns _ _ _ _ _ _ Hsave)
    as (u & [code body] & body' & w2 & -> & Hreply & Hread & Hopen & ->).
  simpl in Hread. subst body.
  destruct (open_output_path _ _ _ _ _ Hopen) as [Hexplicit Htemp].
  exists u, code, body'. split; [exact Hreply|].
  split; [simpl; now rewrite <- app_assoc|].
  split; [reflexivity|]. split; [reflexivity|].
  split; [exact Hexplicit | exact Htemp].
Qed.

(** Whenever [gh_download_release_asset] returns a path, two requests
    were sent, the second one was answered with a body that could be read,
    and the file at the returned path holds exactly that body, every other
    file being as before.  The path is the destination when that is a
    non-empty string, and otherwise a path that was not in use and ends
    with the extension. *)
Theorem returned_path_holds_the_body
    (user repo tag extension : string) (destination : option string)
    (w w' : world) (path : string) :
  gh_download_release_asset E user repo tag extension destination w
  = (inr path, w') ->
  exists u code data,
    net_reply E (requests w ++ [release_url user repo tag])%list u
    = inr (HttpResponse code (inr data)) /\
    requests w' = (requests w ++ [release_url user repo tag; u])%list /\
    files w' !! path = Some data /\
    (forall other, other <> path -> files w' !! other = files w !! other) /\
    (truthy destination = true -> destination = Some path) /\
    (truthy destination = false ->
     endswith path extension = true /\ files w !! path = None).
Proof.
  intros H.
  destruct (download_returns _ _ _ _ _ _ _ _ H)
    as (u & code & data & Hreply & Hreq & Hfiles & _ & Hexplicit & Htemp).
  exists u, code, data. split; [exact Hreply|]. split; [exact Hreq|].
  rewrite Hfiles. split; [apply lookup_insert_eq|]. split.
  - intros other Hother. now apply lookup_insert_ne.
  - split; [exact Hexplicit|]. intros Hfalse.
    destruct (Htemp Hfalse) as (Hsuffix & _ & Hfree). now split.
Qed.

(** Whenever [download_paperless_archive] returns a path, the release
    looked up was the tag of paperless-ngx/paperless-ngx, and the path is
    a new file whose name ends with ".tar.xz" and which holds the body of
    the second answer. *)
Theorem download_paperless_archive_returns (tag : string) (w w' : world)
    (path : string) :
  download_paperless_archive E tag w = (inr path, w') ->
  endswith path ".tar.xz" = true /\
  files w !! path = None /\
  exists u code data,
    requests w'
    = (requests w
         ++ ["https://api.github.com/repos/paperless-ngx/paperless-ngx/releases/tags/"
               +:+ tag; u])%list /\
    net_reply E
      (requests w
         ++ ["https://api.github.com/repos/paperless-ngx/paperless-ngx/releases/tags/"
               +:+ tag])%list u
    = inr (HttpResponse code (inr data)) /\
    files w' = <[path := data]> (files w).
Proof.
  unfold download_paperless_archive. intros H.
  destruct (download_returns _ _ _ _ _ _ _ _ H)
    as (u & code & data & Hreply & Hreq & Hfiles & _ & _ & Htemp).
  destruct (Htemp eq_refl) as (Hsuffix & _ & Hfree).
  split; [exact Hsuffix|]. split; [exact Hfree|].
  exists u, code, data. split; [exact Hreq|]. split; [exact Hreply|].
  exact Hfiles.
Qed.

End FetcherEffects.

(** ** The further cases on the example network *)

Lemma gh_download_asset_without_name_example :
  gh_download_release_asset Cases.cases "o" "p" "nameless" ".tar.xz" None
    Demo.w0
  = (inl (KeyError "name"),
     add_request "https://api.github.com/repos/o/p/releases/tags/nameless"
       Demo.w0).
Proof.
  apply (gh_download_asset_without_name Cases.cases "o" "p" "nameless"
           ".tar.xz" None Demo.w0 Cases.nameless_value
           [Demo.asset_x] [Demo.asset_y] [("id", PyInt 7)]).
  - cases_lookup Cases.nameless_text.
  - reflexivity.
  - reflexivity.
  - reflexivity.
Defined.

Lemma gh_download_asset_without_url_example :
  gh_download_release_asset Cases.cases "o" "p" "urlless" ".tar.xz" None
    Demo.w0
  = (inl (KeyError "browser_download_url"),
     add_request "https://api.github.com/repos/o/p/releases/tags/urlless"
       Demo.w0).
Proof.
  apply (gh_download_asset_without_url Cases.cases "o" "p" "urlless"
           ".tar.xz" None Demo.w0 Cases.urlless_value
           [] [Demo.asset_z] [("name", PyStr "y.tar.xz")]).
  - cases_lookup Cases.urlless_text.
  - reflexivity.
  - reflexivity.
  - reflexivity.
  - reflexivity.
Defined.

Lemma gh_download_null_url_reads_as_not_found_example :
  gh_download_release_asset Cases.cases "o" "p" "null" ".tar.xz" None Demo.w0
  = (inl (Exception "No asset with extension .tar.xz found for release null"),
     add_request "https://api.github.com/repos/o/p/releases/tags/null"
       Demo.w0).
Proof.
  apply (gh_download_null_url_reads_as_not_found Cases.cases "o" "p" "null"
           ".tar.xz" None Demo.w0 Cases.null_url_value
           [] [Demo.asset_z] Cases.null_url_asset).
  - cases_lookup Cases.null_url_text.
  - reflexivity.
  - reflexivity.
  - reflexivity.
  - reflexivity.
Defined.

Lemma gh_download_without_assets_example :
  gh_download_release_asset Cases.cases "o" "p" "bare" ".tar.xz" None Demo.w0
  = (inl (KeyError "assets"),
     add_request "https://api.github.com/repos/o/p/releases/tags/bare"
       Demo.w0).
Proof.
  apply (gh_download_without_assets Cases.cases "o" "p" "bare" ".tar.xz"
           None Demo.w0 [("tag_name", PyStr "v1")]).
  - cases_lookup Cases.bare_text.
  - reflexivity.
Defined.

Lemma gh_download_empty_extension_takes_first_example :
  gh_download_release_asset Demo.demo "o" "p" "v1" "" None Demo.w0
  = save_asset Demo.demo (PyStr "https://dl/x.zip") "" None
      (add_request "https://api.github.com/repos/o/p/releases/tags/v1"
         Demo.w0).
Proof.
  apply (gh_download_empty_extension_takes_first Demo.demo "o" "p" "v1" None
           Demo.w0 Demo.release_value Demo.asset_x
           [Demo.asset_y; Demo.asset_z] "x.zip" "https://dl/x.zip").
  - demo_lookup Demo.release_text.
  - reflexivity.
  - reflexivity.
  - reflexivity.
Defined.

Lemma failed_asset_request_touches_no_file_example :
  gh_download_release_asset Cases.offline "o" "p" "v1" ".tar.xz"
    (Some "/srv/old.tar.xz") Demo.w0
  = (inl (Foreign Demo.unreachable),
     add_request "https://dl/U"
       (add_request "https://api.github.com/repos/o/p/releases/tags/v1"
          Demo.w0))
  /\
  files
    (snd (gh_download_release_asset Cases.offline "o" "p" "v1" ".tar.xz"
            (Some "/srv/old.tar.xz") Demo.w0))
  = files Demo.w0.
Proof.
  apply (failed_asset_request_touches_no_file Cases.offline "o" "p" "v1"
           ".tar.xz" "https://dl/U" (Some "/srv/old.tar.xz") Demo.w0
           Demo.unreachable).
  - demo_selects; vm_compute; reflexivity.
  - reflexivity.
Defined.

Lemma failed_read_leaves_empty_output_example :
  fst (gh_download_release_asset Cases.unreadable "o" "p" "v1" ".tar.xz"
         (Some "/srv/old.tar.xz") Demo.w0)
  = inl (Foreign Cases.incomplete)
  /\
  files
    (snd (gh_download_release_asset Cases.unreadable "o" "p" "v1" ".tar.xz"
            (Some "/srv/old.tar.xz") Demo.w0))
  = <["/srv/old.tar.xz" := []]> (files Demo.w0).
Proof.
  apply (failed_read_leaves_empty_output Cases.unreadable "o" "p" "v1"
           ".tar.xz" "https://dl/U" (Some "/srv/old.tar.xz") Demo.w0
           (set_files (<["/srv/old.tar.xz" := []]> (files Demo.w0))
              (add_request "https://dl/U"
                 (add_request
                    "https://api.github.com/repos/o/p/releases/tags/v1"
                    Demo.w0)))
           200 Cases.incomplete "/srv/old.tar.xz").
  - demo_selects; vm_compute; reflexivity.
  - reflexivity.
  - reflexivity.
Defined.

Lemma unwritable_destination_fails_after_request_example :
  gh_download_release_asset Cases.read_only "o" "p" "v1" ".tar.xz"
    (Some "/srv/old.tar.xz") Demo.w0
  = (inl (Foreign Cases.denied),
     add_request "https://dl/U"
       (add_request "https://api.github.com/repos/o/p/releases/tags/v1"
          Demo.w0)).
Proof.
  apply (unwritable_destination_fails_after_request Cases.read_only "o" "p"
           "v1" ".tar.xz" "https://dl/U" "/srv/old.tar.xz" Demo.w0
           (HttpResponse 200 (inr Demo.archive)) Cases.denied).
  - demo_selects; vm_compute; reflexivity.
  - reflexivity.
  - discriminate.
  - reflexivity.
Defined.

Lemma returned_path_holds_the_body_example :
  exists u code data,
    net_reply Demo.demo
      ([] ++ ["https://api.github.com/repos/o/p/releases/tags/v1"])%list u
    = inr (HttpResponse code (inr data)) /\
    requests
      (snd (gh_download_release_asset Demo.demo "o" "p" "v1" ".tar.xz"
              (Some "/srv/old.tar.xz") Demo.w0))
    = ([] ++ ["https://api.github.com/repos/o/p/releases/tags/v1"; u])%list /\
    files
      (snd (gh_download_release_asset Demo.demo "o" "p" "v1" ".tar.xz"
              (Some "/srv/old.tar.xz") Demo.w0))
      !! "/srv/old.tar.xz" = Some data.
Proof.
  destruct (returned_path_holds_the_body Demo.demo "o" "p" "v1" ".tar.xz"
              (Some "/srv/old.tar.xz") Demo.w0
              (snd (gh_download_release_asset Demo.demo "o" "p" "v1"
                      ".tar.xz" (Some "/srv/old.tar.xz") Demo.w0))
              "/srv/old.tar.xz")
    as (u & code & data & Hreply & Hrequests & Hfile & _).
  - vm_compute. reflexivity.
  - exists u, code, data. split; [exact Hreply|].
    split; [exact Hrequests | exact Hfile].
Defined.

Lemma download_paperless_archive_returns_example :
  endswith "/tmp/tmpn1.tar.xz" ".tar.xz" = true /\
  files Demo.w0 !! "/tmp/tmpn1.tar.xz" = None.
Proof.
  destruct (download_paperless_archive_returns Cases.cases "v1" Demo.w0
              (snd (download_paperless_archive Cases.cases "v1" Demo.w0))
              "/tmp/tmpn1.tar.xz")
    as (Hsuffix & Hfree & _).
  - vm_compute. reflexivity.
  - split; [exact Hsuffix | exact Hfree].
Defined.

Example download_paperless_archive_on_the_example_network :
  fst (download_paperless_archive Cases.cases "v1" Demo.w0)
  = inr "/tmp/tmpn1.tar.xz"
  /\
  requests (snd (download_paperless_archive Cases.cases "v1" Demo.w0))
  = ["https://api.github.com/repos/paperless-ngx/paperless-ngx/releases/tags/v1";
     "https://dl/U"].
Proof. split; vm_compute; reflexivity. Qed.
